(** * The categorizer and the threshold filter of [code.py]

    A shallow embedding of [add_category_column] and [filter_by_min_value]
    together with the part of pandas they call, and the properties of the
    specification stated over it.

    Numbers are rationals ([Q]); a missing float ([NaN]) is [None].  Frames
    are column stores with a row index, as in pandas.  Python exceptions are
    values of [PyError] carried by the [result] type; [NotModelled] marks the
    corners of pandas that the two functions never reach on a numeric
    column.

    The pandas operations follow pandas 2.x:
    - [pd.cut] with a list of edges and [right=True] looks every value up
      with [searchsorted(side="left")], so intervals are closed on the
      right; values outside the edges and [NaN] get no category;
    - a categorical column accepts in [s[mask] = value] only a value that is
      one of its categories and raises [TypeError] otherwise, whatever the
      mask selects;
    - [df.loc[mask, name] = value] with an indexer of length zero is a
      no-op. *)

From Stdlib Require Import String List ZArith QArith Bool Arith Lia.
Import ListNotations.

Local Open Scope string_scope.
Local Open Scope list_scope.

(** ** Exceptions *)

Inductive PyError : Type :=
| KeyError (key : string)
| TypeError
| ValueError
| NotModelled.

Inductive result (A : Type) : Type :=
| Ok (a : A)
| Raise (e : PyError).

Arguments Ok {A} a.
Arguments Raise {A} e.

Definition bind {A B : Type} (r : result A) (k : A -> result B) : result B :=
  match r with
  | Ok a => k a
  | Raise e => Raise e
  end.

Notation "x <- e ;; k" := (bind e (fun x => k))
  (at level 61, e at next level, right associativity).

(** ** The pandas fragment *)

Module pd.

(** A column (a [Series] without its index, which is the frame's).  The
    dtypes are the ones the script creates: [float64] with [NaN], [int64],
    [object] holding text or [None], and [category]. *)
Inductive Column : Type :=
| Float64 (xs : list (option Q))
| Int64 (xs : list Z)
| Object (xs : list (option string))
| Categorical (categories : list string) (xs : list (option string)).

Definition size (c : Column) : nat :=
  match c with
  | Float64 xs => length xs
  | Int64 xs => length xs
  | Object xs => length xs
  | Categorical _ xs => length xs
  end.

Record DataFrame : Type := mkDataFrame {
  index : list Z;
  columns : list (string * Column)
}.

Definition labels (df : DataFrame) : list string := map fst (columns df).

(** Every column is as long as the index. *)
Definition wf (df : DataFrame) : Prop :=
  Forall (fun nc => size (snd nc) = length (index df)) (columns df).

Fixpoint lookup (name : string) (cols : list (string * Column)) : option Column :=
  match cols with
  | [] => None
  | (n, c) :: rest => if String.eqb n name then Some c else lookup name rest
  end.

(** [df[name]] *)
Definition getitem (df : DataFrame) (name : string) : result Column :=
  match lookup name (columns df) with
  | Some c => Ok c
  | None => Raise (KeyError name)
  end.

Fixpoint assign (name : string) (c : Column) (cols : list (string * Column))
  : list (string * Column) :=
  match cols with
  | [] => [(name, c)]
  | (n, c0) :: rest =>
      if String.eqb n name then (n, c) :: rest else (n, c0) :: assign name c rest
  end.

(** [df[name] = c] for a series [c] that carries the frame's own index: an
    existing column is replaced where it stands, a new one goes last. *)
Definition setitem (df : DataFrame) (name : string) (c : Column) : DataFrame :=
  mkDataFrame (index df) (assign name c (columns df)).

(** [df.copy()]: a deep copy; frames are values here, the object identity of
    a copy is modelled in [Mem] below. *)
Definition copy (df : DataFrame) : DataFrame := df.

(** [s.fillna(v)] for a number [v].  Text and categorical columns are
    outside the model. *)
Definition fillna (c : Column) (v : Q) : result Column :=
  match c with
  | Float64 xs =>
      Ok (Float64 (map (fun x => Some (match x with Some q => q | None => v end)) xs))
  | Int64 xs => Ok (Int64 xs)
  | Object _ | Categorical _ _ => Raise NotModelled
  end.

(** [np.float64(z)] for an integer [z], the conversion numpy applies to an
    [int64] column that meets a float: exact below 2^53 in magnitude, and
    beyond that the nearest multiple of the spacing [2 ^ (log2 |z| - 52)],
    a tie going to the even multiple. *)
Definition float64_of_int (z : Z) : Q :=
  let a := Z.abs z in
  if (a <? 2 ^ 53)%Z then inject_Z z
  else
    let unit := (2 ^ (Z.log2 a - 52))%Z in
    let q := (a / unit)%Z in
    let r := (a mod unit)%Z in
    let q' :=
      if (2 * r <? unit)%Z then q
      else if (unit <? 2 * r)%Z then (q + 1)%Z
      else if Z.even q then q else (q + 1)%Z in
    inject_Z (Z.sgn z * (q' * unit)).

(** The numbers of a numeric column as the [float64] values that the
    comparisons and [pd.cut] work on; [None] is [NaN].  An [int64] column
    is converted entry by entry. *)
Definition to_numeric (c : Column) : result (list (option Q)) :=
  match c with
  | Float64 xs => Ok xs
  | Int64 xs => Ok (map (fun z => Some (float64_of_int z)) xs)
  | Object _ | Categorical _ _ => Raise NotModelled
  end.

(** [bins.searchsorted(x, side="left")]: the first position whose edge is
    not below [x]. *)
Fixpoint searchsorted_left (bins : list Q) (x : Q) : nat :=
  match bins with
  | [] => 0
  | b :: rest => if Qle_bool x b then 0 else S (searchsorted_left rest x)
  end.

Fixpoint increasing (bins : list Q) : bool :=
  match bins with
  | [] => true
  | b :: rest =>
      match rest with
      | [] => true
      | b' :: _ => negb (Qle_bool b' b) && increasing rest
      end
  end.

(** One value through [pd.cut(..., right=True)]: [ids] counts the edges
    below the value, [include_lowest] moves a value on the first edge into
    the first interval, and a value left of the first edge, right of the
    last one, or [NaN] gets no label. *)
Definition cut_value (bins : list Q) (labels : list string) (include_lowest : bool)
    (x : option Q) : option string :=
  match x with
  | None => None
  | Some q =>
      let ids := searchsorted_left bins q in
      let ids :=
        if include_lowest && match bins with b0 :: _ => Qeq_bool q b0 | [] => false end
        then 1%nat else ids in
      if (ids =? 0)%nat || (ids =? length bins)%nat then None
      else nth_error labels (ids - 1)
  end.

(** [pd.cut(s, bins=bins, labels=labels, include_lowest=include_lowest)]
    with the default [right=True]: intervals are open on the left and closed
    on the right.  The result is a categorical whose categories are exactly
    [labels]. *)
Definition cut (c : Column) (bins : list Q) (labels : list string)
    (include_lowest : bool) : result Column :=
  xs <- to_numeric c ;;
  if negb (increasing bins) then Raise ValueError
  else if negb (S (length labels) =? length bins)%nat then Raise ValueError
  else Ok (Categorical labels (map (cut_value bins labels include_lowest) xs)).

(** [s == v] for a number [v]; [NaN == v] is [False].  On an [int64]
    column and an integer [v] below 2^53 in magnitude the comparison of the
    integers and the comparison of their [float64] values agree. *)
Definition eq_scalar (c : Column) (v : Q) : result (list bool) :=
  xs <- to_numeric c ;;
  Ok (map (fun x => match x with Some q => Qeq_bool q v | None => false end) xs).

(** [s >= v] for a float [v]; [NaN >= v] is [False].  An [int64] column is
    compared through its [float64] values, as numpy does. *)
Definition ge_scalar (c : Column) (v : Q) : result (list bool) :=
  xs <- to_numeric c ;;
  Ok (map (fun x => match x with Some q => Qle_bool v q | None => false end) xs).

Definition putmask {A : Type} (mask : list bool) (v : A) (xs : list A) : list A :=
  map (fun mx : bool * A => if fst mx then v else snd mx) (combine mask xs).

(** [s[mask] = value] on the column's array.  A categorical validates the
    value against its categories before it looks at the mask, and raises
    [TypeError] ("Cannot setitem on a Categorical with a new category, set
    the categories first") for a value that is not one of them. *)
Definition column_setitem (c : Column) (mask : list bool) (value : string)
  : result Column :=
  match c with
  | Categorical cats xs =>
      if existsb (String.eqb value) cats
      then Ok (Categorical cats (putmask mask (Some value) xs))
      else Raise TypeError
  | Object xs => Ok (Object (putmask mask (Some value) xs))
  | Float64 _ | Int64 _ => Raise NotModelled
  end.

(** [df.loc[mask, name] = value] for a boolean [mask] over the rows and a
    text [value].  An indexer of length zero sets nothing and returns before
    the column is touched; otherwise the column's array is set in place.
    [name] is an existing column wherever the script uses this (setting with
    enlargement is outside the model). *)
Definition loc_setitem (df : DataFrame) (mask : list bool) (name value : string)
  : result DataFrame :=
  match mask with
  | [] => Ok df
  | _ :: _ =>
      match lookup name (columns df) with
      | None => Raise NotModelled
      | Some c =>
          c' <- column_setitem c mask value ;;
          Ok (setitem df name c')
      end
  end.

(** [df.drop(columns=name)] *)
Definition drop (df : DataFrame) (name : string) : result DataFrame :=
  match lookup name (columns df) with
  | None => Raise (KeyError name)
  | Some _ =>
      Ok (mkDataFrame (index df)
            (filter (fun nc => negb (String.eqb (fst nc) name)) (columns df)))
  end.

(** The entries of [xs] at the positions where [mask] is [True]. *)
Definition select {A : Type} (mask : list bool) (xs : list A) : list A :=
  map snd (filter (fun mx : bool * A => fst mx) (combine mask xs)).

Definition select_column (mask : list bool) (c : Column) : Column :=
  match c with
  | Float64 xs => Float64 (select mask xs)
  | Int64 xs => Int64 (select mask xs)
  | Object xs => Object (select mask xs)
  | Categorical cats xs => Categorical cats (select mask xs)
  end.

(** [df[mask]] for a boolean [mask] over the rows. *)
Definition getitem_mask (df : DataFrame) (mask : list bool) : DataFrame :=
  mkDataFrame (select mask (index df))
    (map (fun nc => (fst nc, select_column mask (snd nc))) (columns df)).

(** *** Rows *)

Inductive Cell : Type :=
| FloatCell (x : option Q)
| IntCell (z : Z)
| ObjectCell (o : option string)
| CategoryCell (o : option string).

Definition cells (c : Column) : list Cell :=
  match c with
  | Float64 xs => map FloatCell xs
  | Int64 xs => map IntCell xs
  | Object xs => map ObjectCell xs
  | Categorical _ xs => map CategoryCell xs
  end.

(** A row: its index label and, per column, the label and the cell. *)
Definition Row : Type := (Z * list (string * option Cell))%type.

Fixpoint transpose (idx : list Z) (cols : list (string * list Cell)) : list Row :=
  match idx with
  | [] => []
  | i :: idx' =>
      (i, map (fun nc => (fst nc, hd_error (snd nc))) cols)
        :: transpose idx' (map (fun nc => (fst nc, tl (snd nc))) cols)
  end.

(** The rows of a frame, top to bottom. *)
Definition rows (df : DataFrame) : list Row :=
  transpose (index df) (map (fun nc => (fst nc, cells (snd nc))) (columns df)).

End pd.

Import pd.

(** ** The script *)

(** The constants of [add_category_column]: the fill value of line 76 and
    the [bins] and [labels] of lines 79-80. *)
Definition SENTINEL : Q := -9999.
Definition BINS : list Q := [-10000; 30; 60; 1e9]%Q.
Definition LABELS : list string := ["low"; "medium"; "high"].

(** A statement that updates the working frame [out] in place. *)
Definition stmt : Type := DataFrame -> result DataFrame.

Fixpoint exec (ss : list stmt) (out : DataFrame) : result DataFrame :=
  match ss with
  | [] => Ok out
  | s :: rest => out' <- s out ;; exec rest out'
  end.

(** Line 76: [out["_val_filled"] = out[col].fillna(-9999)] *)
Definition line76 (col : string) : stmt := fun out =>
  s <- getitem out col ;;
  filled <- fillna s SENTINEL ;;
  Ok (setitem out "_val_filled" filled).

(** Lines 77-82:
    [out["category"] = pd.cut(out["_val_filled"], bins=..., labels=..., include_lowest=True)] *)
Definition line77 : stmt := fun out =>
  w <- getitem out "_val_filled" ;;
  c <- cut w BINS LABELS true ;;
  Ok (setitem out "category" c).

(** The row mask of line 83: [out["_val_filled"] == -9999] *)
Definition override_mask (out : DataFrame) : result (list bool) :=
  w <- getitem out "_val_filled" ;;
  eq_scalar w SENTINEL.

(** Line 83: [out.loc[out["_val_filled"] == -9999, "category"] = "missing"] *)
Definition line83 : stmt := fun out =>
  mask <- override_mask out ;;
  loc_setitem out mask "category" "missing".

(** Line 84: [out.drop(columns="_val_filled", inplace=True)] *)
Definition line84 : stmt := fun out => drop out "_val_filled".

Definition body (col : string) : list stmt := [line76 col; line77; line83; line84].

(** [add_category_column(df, col)]: [out = df.copy()], the four statements
    on [out], [return out]. *)
Definition add_category_column (df : DataFrame) (col : string) : result DataFrame :=
  exec (body col) (copy df).

(** The working frame when lines 74-82 have run, before the override. *)
Definition after_binning (df : DataFrame) (col : string) : result DataFrame :=
  exec (firstn 2 (body col)) (copy df).

(** [filter_by_min_value(df, min_value)]:
    [df[df["value"] >= min_value].copy()] *)
Definition filter_by_min_value (df : DataFrame) (min_value : Q) : result DataFrame :=
  v <- getitem df "value" ;;
  mask <- ge_scalar v min_value ;;
  Ok (copy (getitem_mask df mask)).

(** ** Frames as objects

    Python passes frames by reference.  A heap of frames makes the identity
    of the argument, of the copy and of the returned frame explicit:
    [df.copy()] and [df[mask]] allocate, the statements of
    [add_category_column] write to the object [out] refers to. *)

Module Mem.

Definition ref : Type := nat.
Definition heap : Type := list DataFrame.

Definition alloc (h : heap) (df : DataFrame) : heap * ref :=
  (h ++ [df], length h).

Fixpoint store (h : heap) (r : ref) (df : DataFrame) : heap :=
  match h with
  | [] => []
  | d :: rest =>
      match r with
      | O => df :: rest
      | S r' => d :: store rest r' df
      end
  end.

(** Run statements on the object at [out]; an exception leaves the heap as
    the statement found it. *)
Fixpoint exec (ss : list stmt) (h : heap) (out : ref) : heap * result unit :=
  match ss with
  | [] => (h, Ok tt)
  | s :: rest =>
      match nth_error h out with
      | None => (h, Raise NotModelled)
      | Some d =>
          match s d with
          | Ok d' => exec rest (store h out d') out
          | Raise e => (h, Raise e)
          end
      end
  end.

Definition add_category_column (h : heap) (df : ref) (col : string)
  : heap * result ref :=
  match nth_error h df with
  | None => (h, Raise NotModelled)
  | Some d =>
      let (h1, out) := alloc h (copy d) in
      let (h2, r) := exec (body col) h1 out in
      (h2, _ <- r ;; Ok out)
  end.

Definition filter_by_min_value (h : heap) (df : ref) (min_value : Q)
  : heap * result ref :=
  match nth_error h df with
  | None => (h, Raise NotModelled)
  | Some d =>
      match (v <- getitem d "value" ;; ge_scalar v min_value) with
      | Raise e => (h, Raise e)
      | Ok mask =>
          let (h1, selected) := alloc h (getitem_mask d mask) in
          let (h2, res) := alloc h1 (copy (getitem_mask d mask)) in
          (h2, Ok res)
      end
  end.

End Mem.

(** ** Vocabulary of the statements *)

(** The labels of the [category] column of a frame, row by row; [None] is
    a row without a label. *)
Definition category_labels (df : DataFrame) : result (list (option string)) :=
  c <- getitem df "category" ;;
  match c with
  | Categorical _ xs => Ok xs
  | Object xs => Ok xs
  | Float64 _ | Int64 _ => Raise TypeError
  end.

Definition is_label (l : string) : Prop :=
  l = "low" \/ l = "medium" \/ l = "high" \/ l = "missing".

Definition count_true (mask : list bool) : nat :=
  length (filter (fun b : bool => b) mask).

Definition absent (x : option Q) : bool :=
  match x with Some _ => false | None => true end.

Definition is_sentinel (x : option Q) : bool :=
  match x with Some q => Qeq_bool q SENTINEL | None => false end.

Definition count_absent (xs : list (option Q)) : nat := length (filter absent xs).
Definition count_sentinel (xs : list (option Q)) : nat := length (filter is_sentinel xs).

(** [x >= m] as line 90 evaluates it on a cell. *)
Definition reaches (m : Q) (x : option Q) : bool :=
  match x with Some q => Qle_bool m q | None => false end.

(** A frame with an integer [id] column and a float [value] column. *)
Definition value_frame (xs : list (option Q)) : DataFrame :=
  mkDataFrame (map Z.of_nat (seq 0 (length xs)))
    [("id", Int64 (map Z.of_nat (seq 1 (length xs)))); ("value", Float64 xs)].

(** The value [fillna] leaves in a cell of the working column. *)
Definition filled (x : option Q) : option Q :=
  Some (match x with Some q => q | None => SENTINEL end).


(** Frames used as concrete inputs below. *)
Definition on_edges : DataFrame := value_frame [Some 30; Some 60]%Q.
Definition beyond_last_edge : DataFrame := value_frame [Some 2e9]%Q.
Definition genuine_sentinel : DataFrame := value_frame [Some (-9999)]%Q.
Definition one_absent : DataFrame := value_frame [Some 45; None]%Q.
Definition no_rows : DataFrame := value_frame [].
Definition has_category : DataFrame :=
  mkDataFrame [] [("value", Float64 []); ("category", Object [])].
Definition has_val_filled : DataFrame :=
  mkDataFrame [] [("value", Float64 []); ("_val_filled", Object [])].
Definition demo : DataFrame := value_frame [Some 10; None; Some 50; Some 55]%Q.

(** ** The rest of the script

    [create_sample_df], [summarize_df], [save_df] and [main], with the
    pandas operations they add.  What the script prints and writes is
    recorded as a log of events; the text pandas renders for a frame is not
    modelled, the event carries the frame itself. *)

From Stdlib Require Import Ascii DecimalString.

(** [df.head()]: the first five rows. *)
Definition take_column (k : nat) (c : Column) : Column :=
  match c with
  | Float64 xs => Float64 (firstn k xs)
  | Int64 xs => Int64 (firstn k xs)
  | Object xs => Object (firstn k xs)
  | Categorical cats xs => Categorical cats (firstn k xs)
  end.

Definition head (df : DataFrame) : DataFrame :=
  mkDataFrame (firstn 5 (index df))
    (map (fun nc => (fst nc, take_column 5 (snd nc))) (columns df)).

Definition is_none {A : Type} (o : option A) : bool :=
  match o with Some _ => false | None => true end.

(** The missing entries of a column: [s.isna().sum()]. *)
Definition isna_count (c : Column) : nat :=
  match c with
  | Float64 xs => length (filter is_none xs)
  | Int64 _ => 0
  | Object xs => length (filter is_none xs)
  | Categorical _ xs => length (filter is_none xs)
  end.

(** [df.isna().sum()] *)
Definition isna_sum (df : DataFrame) : list (string * nat) :=
  map (fun nc => (fst nc, isna_count (snd nc))) (columns df).

Definition is_number (c : Column) : bool :=
  match c with
  | Float64 _ | Int64 _ => true
  | Object _ | Categorical _ _ => false
  end.

(** [df.select_dtypes(include=[np.number])], the columns [describe] reports. *)
Definition select_number (df : DataFrame) : DataFrame :=
  mkDataFrame (index df) (filter (fun nc => is_number (snd nc)) (columns df)).

(** [df[names]] for a list of labels. *)
Fixpoint getitem_columns (df : DataFrame) (names : list string)
  : result (list (string * Column)) :=
  match names with
  | [] => Ok []
  | n :: rest =>
      c <- getitem df n ;;
      cs <- getitem_columns df rest ;;
      Ok ((n, c) :: cs)
  end.

Definition getitem_list (df : DataFrame) (names : list string) : result DataFrame :=
  cs <- getitem_columns df names ;;
  Ok (mkDataFrame (index df) cs).

(** [df.loc[label, name] = np.nan] and [df.loc[label, name] = None]: the
    cell of column [name] in the rows labelled [label] becomes missing.  A
    label or a column that does not exist would enlarge the frame, and an
    integer column would change its dtype; neither is modelled. *)
Definition loc_set_na (df : DataFrame) (label : Z) (name : string) : result DataFrame :=
  let mask := map (Z.eqb label) (index df) in
  if negb (existsb (fun b : bool => b) mask) then Raise NotModelled
  else
    match lookup name (columns df) with
    | None => Raise NotModelled
    | Some (Float64 xs) => Ok (setitem df name (Float64 (putmask mask None xs)))
    | Some (Object xs) => Ok (setitem df name (Object (putmask mask None xs)))
    | Some (Categorical cats xs) =>
        Ok (setitem df name (Categorical cats (putmask mask None xs)))
    | Some (Int64 _) => Raise NotModelled
    end.

(** [f"item_{i}"] *)
Definition item_name (i : nat) : string :=
  "item_" ++ NilEmpty.string_of_uint (Nat.to_uint i).

(** [os.path.dirname] on a POSIX path: the part before the last slash,
    without trailing slashes unless it consists of slashes only. *)
Definition is_sep (c : ascii) : bool := Ascii.eqb c "/".

Fixpoint upto_last_sep (l : list ascii) : list ascii :=
  match l with
  | [] => []
  | c :: rest =>
      match upto_last_sep rest with
      | [] => if is_sep c then [c] else []
      | h :: t => c :: h :: t
      end
  end.

Fixpoint lstrip_sep (l : list ascii) : list ascii :=
  match l with
  | [] => []
  | c :: rest => if is_sep c then lstrip_sep rest else l
  end.

Definition dirname (p : string) : string :=
  let head := upto_last_sep (list_ascii_of_string p) in
  if forallb is_sep head then string_of_list_ascii head
  else string_of_list_ascii (rev (lstrip_sep (rev head))).

(** *** Output *)

Inductive Event : Type :=
| PrintText (text : string)
| PrintFrame (df : DataFrame)
| PrintInfo (df : DataFrame)
| PrintDescribe (numbers : DataFrame)
| PrintCounts (counts : list (string * nat))
| MakeDirs (dir : string)
| ToCsv (df : DataFrame) (path : string).

(** A computation that prints and writes, and returns or raises. *)
Definition IO (A : Type) : Type := (list Event * result A)%type.

Definition io_bind {A B : Type} (m : IO A) (k : A -> IO B) : IO B :=
  match snd m with
  | Ok a => (fst m ++ fst (k a), snd (k a))
  | Raise e => (fst m, Raise e)
  end.

Definition emit (e : Event) : IO unit := ([e], Ok tt).
Definition lift {A : Type} (r : result A) : IO A := ([], r).

Notation "x <~ e ;; k" := (io_bind e (fun x => k))
  (at level 61, e at next level, right associativity).
Notation "e >> k" := (io_bind e (fun _ => k))
  (at level 61, right associativity).

Definition newline : string := String "010" "".

(** [summarize_df(df)], lines 57-66.  [df.info()] writes its report and
    returns [None], which the enclosing [print] shows.  [describe] of a frame
    without a numeric column is outside the model. *)
Definition summarize_df (df : DataFrame) : IO unit :=
  emit (PrintText "===== DataFrame info =====") >>
  emit (PrintInfo df) >>
  emit (PrintText "None") >>
  emit (PrintText (newline ++ "===== Head =====")) >>
  emit (PrintFrame (head df)) >>
  emit (PrintText (newline ++ "===== Describe (numeric) =====")) >>
  (if existsb (fun nc => is_number (snd nc)) (columns df)
   then emit (PrintDescribe (select_number df))
   else lift (Raise NotModelled)) >>
  emit (PrintText (newline ++ "===== Missing values per column =====")) >>
  emit (PrintCounts (isna_sum df)).

(** [save_df(df, path)], lines 93-97.  [main] declares its path optional;
    [os.path.dirname(None)] raises [TypeError]. *)
Definition save_df (df : DataFrame) (path : option string) : IO unit :=
  match path with
  | None => lift (Raise TypeError)
  | Some p =>
      emit (MakeDirs (if String.eqb (dirname p) "" then "." else dirname p)) >>
      emit (ToCsv df p) >>
      emit (PrintText ("Saved DataFrame to: " ++ p))
  end.

Section Sample.

(** The random draws and the calendar are inputs: [normal i] is entry [i]
    of [np.round(rng.normal(loc=50, scale=15, size=n), 2)], and [date i] is
    the ISO text of today minus the [i]-th draw of [rng.integers]. *)
Variable normal : nat -> Q.
Variable date : nat -> string.

(** [create_sample_df(n)], lines 24-49.  A negative size makes
    [rng.normal] raise [ValueError]. *)
Definition create_sample_df (n : Z) : result DataFrame :=
  if (n <? 0)%Z then Raise ValueError
  else
    let k := Z.to_nat n in
    let df :=
      mkDataFrame (map Z.of_nat (seq 0 k))
        [("id", Int64 (map Z.of_nat (seq 1 k)));
         ("name", Object (map (fun i => Some (item_name i)) (seq 1 k)));
         ("value", Float64 (map (fun i => Some (normal i)) (seq 0 k)));
         ("date", Object (map (fun i => Some (date i)) (seq 0 k)))] in
    if (3 <=? n)%Z then
      df1 <- loc_set_na df 1 "value" ;;
      loc_set_na df1 2 "name"
    else Ok df.

(** [main(sample_output)], lines 100-115. *)
Definition main (sample_output : option string) : IO unit :=
  emit (PrintText "Creating sample DataFrame...") >>
  df <~ lift (create_sample_df 12) ;;
  summarize_df df >>
  emit (PrintText (newline ++ "Adding category column based on 'value'...")) >>
  df2 <~ lift (add_category_column df "value") ;;
  shown <~ lift (getitem_list df2 ["id"; "name"; "value"; "category"]) ;;
  emit (PrintFrame (head shown)) >>
  emit (PrintText (newline ++ "Filtering rows with value >= 50...")) >>
  filtered <~ lift (filter_by_min_value df2 50) ;;
  emit (PrintFrame (head filtered)) >>
  emit (PrintText (newline ++ "Saving filtered results...")) >>
  save_df filtered sample_output.

End Sample.

(** Vocabulary for the statements about these functions. *)

Definition nrows (df : DataFrame) : nat := length (index df).

Definition writes (e : Event) : bool :=
  match e with
  | MakeDirs _ | ToCsv _ _ => true
  | _ => false
  end.

(** Both masks at once, as [m1 & m2] does. *)
Definition mask_and (m1 m2 : list bool) : list bool :=
  map (fun p : bool * bool => fst p && snd p) (combine m1 m2).

(** Draws used for concrete runs. *)
Definition draws (i : nat) : Q := inject_Z (Z.of_nat (20 * i)).
Definition days (i : nat) : string := "2026-01-01".

(** ** Lemmas on the pandas fragment *)

Lemma lookup_assign_same (name : string) (c : Column) cols :
  lookup name (assign name c cols) = Some c.
Proof.
  induction cols as [|[n c0] rest IH]; simpl.
  - now rewrite String.eqb_refl.
  - destruct (String.eqb n name) eqn:E; simpl; rewrite E; auto.
Qed.

Lemma lookup_assign_other (name name' : string) (c : Column) cols :
  name <> name' -> lookup name' (assign name c cols) = lookup name' cols.
Proof.
  intros Hne. induction cols as [|[n c0] rest IH]; simpl.
  - destruct (String.eqb name name') eqn:E; auto.
    apply String.eqb_eq in E. contradiction.
  - destruct (String.eqb n name) eqn:E; simpl.
    + apply String.eqb_eq in E. subst n.
      destruct (String.eqb name name') eqn:E'; auto.
      apply String.eqb_eq in E'. contradiction.
    + destruct (String.eqb n name'); auto.
Qed.

Lemma lookup_None (name : string) cols :
  lookup name cols = None <-> ~ In name (map fst cols).
Proof.
  induction cols as [|[n c0] rest IH]; simpl.
  - tauto.
  - destruct (String.eqb n name) eqn:E.
    + apply String.eqb_eq in E. split; [discriminate | tauto].
    + apply String.eqb_neq in E. tauto.
Qed.

Lemma assign_fresh (name : string) (c : Column) cols :
  ~ In name (map fst cols) -> assign name c cols = cols ++ [(name, c)].
Proof.
  induction cols as [|[n c0] rest IH]; simpl; intros H; auto.
  destruct (String.eqb n name) eqn:E.
  - apply String.eqb_eq in E. tauto.
  - f_equal. apply IH. tauto.
Qed.

Lemma getitem_setitem_same df name c : getitem (setitem df name c) name = Ok c.
Proof. unfold getitem, setitem; simpl. now rewrite lookup_assign_same. Qed.

Lemma getitem_setitem_other df name name' c :
  name <> name' -> getitem (setitem df name c) name' = getitem df name'.
Proof.
  intros H. unfold getitem, setitem; simpl. now rewrite lookup_assign_other.
Qed.

Lemma to_numeric_fillna c xs :
  to_numeric c = Ok xs ->
  exists f, fillna c SENTINEL = Ok f /\ to_numeric f = Ok (map filled xs) /\ size f = size c.
Proof.
  destruct c as [ys|zs|os|cats os]; simpl; intros H; inversion H; subst.
  - eexists; split; [reflexivity|]. simpl. rewrite length_map. split; auto.
  - eexists; split; [reflexivity|]. simpl. rewrite map_map. split; auto.
Qed.

(** Lines 74-82 succeed on a numeric source column and leave the filled
    column and the binned categorical in the working frame. *)
Lemma after_binning_numeric df col c xs :
  getitem df col = Ok c -> to_numeric c = Ok xs ->
  exists f,
    fillna c SENTINEL = Ok f /\
    to_numeric f = Ok (map filled xs) /\
    after_binning df col =
      Ok (setitem (setitem df "_val_filled" f) "category"
            (Categorical LABELS (map (cut_value BINS LABELS true) (map filled xs)))).
Proof.
  intros Hget Hnum.
  destruct (to_numeric_fillna c xs Hnum) as (f & Hf & Hnf & _).
  exists f. split; [exact Hf|]. split; [exact Hnf|].
  unfold after_binning, body, copy. cbn [firstn exec].
  unfold line76 at 1. rewrite Hget. cbn [bind]. rewrite Hf. cbn [bind].
  unfold line77. rewrite getitem_setitem_same. cbn [bind].
  unfold cut. rewrite Hnf. cbn [bind]. reflexivity.
Qed.

Lemma category_after_binning df f cats :
  category_labels (setitem (setitem df "_val_filled" f) "category" (Categorical LABELS cats))
  = Ok cats.
Proof. unfold category_labels. now rewrite getitem_setitem_same. Qed.

Lemma mask_after_binning df f ys c :
  to_numeric f = Ok ys ->
  override_mask (setitem (setitem df "_val_filled" f) "category" c)
  = Ok (map (fun x => match x with Some q => Qeq_bool q SENTINEL | None => false end) ys).
Proof.
  intros H. unfold override_mask.
  rewrite getitem_setitem_other by discriminate.
  rewrite getitem_setitem_same. cbn [bind]. unfold eq_scalar. now rewrite H.
Qed.

(** ** The binning of line 77, value by value *)

(** [pd.cut] with the script's edges and labels, written as a chain of
    comparisons. *)
Lemma cut_value_default (q : Q) :
  cut_value BINS LABELS true (Some q) =
    if Qeq_bool q (-10000) then Some "low"
    else if Qle_bool q (-10000) then None
    else if Qle_bool q 30 then Some "low"
    else if Qle_bool q 60 then Some "medium"
    else if Qle_bool q 1e9 then Some "high"
    else None.
Proof.
  unfold cut_value, BINS, LABELS. cbn [searchsorted_left andb length].
  destruct (Qeq_bool q (-10000)); [reflexivity|].
  destruct (Qle_bool q (-10000)); [reflexivity|].
  destruct (Qle_bool q 30); [reflexivity|].
  destruct (Qle_bool q 60); [reflexivity|].
  destruct (Qle_bool q 1e9); reflexivity.
Qed.

(** A value on an interior edge is in the interval that edge closes. *)
Lemma cut_value_30 (q : Q) : (q == 30)%Q -> cut_value BINS LABELS true (Some q) = Some "low".
Proof.
  intros H. rewrite cut_value_default.
  assert (E0 : Qeq_bool q (-10000) = false) by (rewrite H; reflexivity).
  assert (E1 : Qle_bool q (-10000) = false) by (rewrite H; reflexivity).
  assert (E2 : Qle_bool q 30 = true) by (rewrite H; reflexivity).
  now rewrite E0, E1, E2.
Qed.

Lemma cut_value_60 (q : Q) : (q == 60)%Q -> cut_value BINS LABELS true (Some q) = Some "medium".
Proof.
  intros H. rewrite cut_value_default.
  assert (E0 : Qeq_bool q (-10000) = false) by (rewrite H; reflexivity).
  assert (E1 : Qle_bool q (-10000) = false) by (rewrite H; reflexivity).
  assert (E2 : Qle_bool q 30 = false) by (rewrite H; reflexivity).
  assert (E3 : Qle_bool q 60 = true) by (rewrite H; reflexivity).
  now rewrite E0, E1, E2, E3.
Qed.

Lemma cut_value_in_range (q : Q) :
  (-10000 <= q)%Q -> (q <= 1e9)%Q ->
  exists l, cut_value BINS LABELS true (Some q) = Some l /\ In l LABELS.
Proof.
  intros Hlo Hhi. rewrite cut_value_default.
  destruct (Qeq_bool q (-10000)) eqn:E0; [exists "low"; simpl; auto|].
  destruct (Qle_bool q (-10000)) eqn:E1.
  { apply Qle_bool_iff in E1. apply Qeq_bool_neq in E0.
    exfalso. apply E0. now apply Qle_antisym. }
  destruct (Qle_bool q 30); [exists "low"; simpl; auto|].
  destruct (Qle_bool q 60); [exists "medium"; simpl; auto|].
  destruct (Qle_bool q 1e9) eqn:E4; [exists "high"; simpl; auto|].
  apply Qle_bool_iff in Hhi. congruence.
Qed.

Lemma cut_value_sentinel : cut_value BINS LABELS true (Some SENTINEL) = Some "low".
Proof. reflexivity. Qed.

(** The mask of line 83, cell by cell: true for an absent cell and for a
    present cell equal to the sentinel. *)
Lemma filled_is_sentinel (x : option Q) :
  match filled x with Some q => Qeq_bool q SENTINEL | None => false end
  = absent x || is_sentinel x.
Proof. destruct x as [q|]; reflexivity. Qed.

Lemma count_true_mask (xs : list (option Q)) :
  count_true (map (fun x => absent x || is_sentinel x) xs)
  = (count_absent xs + count_sentinel xs)%nat.
Proof.
  unfold count_true, count_absent, count_sentinel.
  induction xs as [|x rest IH]; [reflexivity|].
  cbn [map filter].
  destruct x as [q|]; cbn [absent is_sentinel orb].
  - destruct (Qeq_bool q SENTINEL); cbn [length]; lia.
  - cbn [length]. lia.
Qed.

(** ** The statements of [add_category_column] in sequence *)

Lemma add_category_column_steps df col :
  add_category_column df col =
    (mid <- after_binning df col ;; out <- line83 mid ;; line84 out).
Proof.
  unfold add_category_column, after_binning, body. cbn [firstn exec].
  destruct (line76 col (copy df)) as [d1|e]; cbn [bind]; [|reflexivity].
  destruct (line77 d1) as [d2|e]; cbn [bind]; [|reflexivity].
  destruct (line83 d2) as [d3|e]; cbn [bind]; [|reflexivity].
  destruct (line84 d3); reflexivity.
Qed.

(** Line 83 on the frame lines 74-82 built: with no row there is nothing to
    set; with at least one row the categorical refuses the value
    ["missing"], which is not among its categories [LABELS]. *)
Lemma line83_after_binning df f ys cats :
  to_numeric f = Ok ys ->
  line83 (setitem (setitem df "_val_filled" f) "category" (Categorical LABELS cats)) =
    match ys with
    | [] => Ok (setitem (setitem df "_val_filled" f) "category" (Categorical LABELS cats))
    | _ :: _ => Raise TypeError
    end.
Proof.
  intros Hf. unfold line83. rewrite (mask_after_binning df f ys _ Hf). cbn [bind].
  destruct ys as [|y rest]; [reflexivity|].
  cbn [map loc_setitem]. unfold setitem at 1. cbn [columns].
  rewrite lookup_assign_same. reflexivity.
Qed.

(** On a numeric source column with at least one row the call raises
    [TypeError] at line 83. *)
Lemma add_category_column_raises df col c x xs :
  getitem df col = Ok c -> to_numeric c = Ok (x :: xs) ->
  add_category_column df col = Raise TypeError.
Proof.
  intros Hget Hnum.
  destruct (after_binning_numeric df col c _ Hget Hnum) as (f & _ & Hnf & Hmid).
  rewrite add_category_column_steps, Hmid. cbn [bind].
  rewrite (line83_after_binning df f _ _ Hnf). reflexivity.
Qed.

Lemma add_category_column_no_rows df col c :
  getitem df col = Ok c -> to_numeric c = Ok [] ->
  exists f,
    add_category_column df col =
      drop (setitem (setitem df "_val_filled" f) "category" (Categorical LABELS []))
           "_val_filled".
Proof.
  intros Hget Hnum.
  destruct (after_binning_numeric df col c _ Hget Hnum) as (f & _ & Hnf & Hmid).
  exists f. rewrite add_category_column_steps, Hmid. cbn [bind].
  rewrite (line83_after_binning df f _ _ Hnf). reflexivity.
Qed.

(** Whatever the input, a returned frame comes from a numeric source column
    without rows. *)
Lemma add_category_column_Ok_inv df col out :
  add_category_column df col = Ok out ->
  exists c, getitem df col = Ok c /\ to_numeric c = Ok [].
Proof.
  intros H.
  destruct (getitem df col) as [c|e] eqn:Hget.
  - destruct (to_numeric c) as [[|x xs]|e] eqn:Hnum.
    + exists c. auto.
    + rewrite (add_category_column_raises df col c x xs Hget Hnum) in H. discriminate.
    + exfalso. unfold add_category_column, body, copy in H. cbn [exec] in H.
      unfold line76 at 1 in H. rewrite Hget in H. cbn [bind] in H.
      destruct c; simpl in Hnum; try discriminate; simpl in H; discriminate.
  - exfalso. unfold add_category_column, body, copy in H. cbn [exec] in H.
    unfold line76 at 1 in H. rewrite Hget in H. discriminate.
Qed.

(** On a numeric source column the call stays inside the model: it returns
    a frame or raises [TypeError]. *)
Lemma add_category_column_numeric_outcome df col c xs :
  getitem df col = Ok c -> to_numeric c = Ok xs ->
  add_category_column df col = Raise TypeError \/
  exists out, add_category_column df col = Ok out.
Proof.
  intros Hget Hnum. destruct xs as [|x xs].
  - right. destruct (add_category_column_no_rows df col c Hget Hnum) as (f & Hf).
    rewrite Hf. unfold drop, setitem. cbn [columns index].
    rewrite lookup_assign_other by discriminate.
    rewrite lookup_assign_same. eexists; reflexivity.
  - left. exact (add_category_column_raises df col c x xs Hget Hnum).
Qed.

Lemma filter_keeps_all {A : Type} (p : A -> bool) (l : list A) :
  (forall a, In a l -> p a = true) -> filter p l = l.
Proof.
  induction l as [|a rest IH]; simpl; intros H; [reflexivity|].
  rewrite (H a) by auto. f_equal. apply IH. auto.
Qed.

Lemma drop_working_column df f c :
  ~ In "_val_filled" (labels df) -> ~ In "category" (labels df) ->
  drop (setitem (setitem df "_val_filled" f) "category" c) "_val_filled"
  = Ok (mkDataFrame (index df) (columns df ++ [("category", c)])).
Proof.
  intros Hv Hc. unfold drop, setitem. cbn [columns index].
  rewrite (assign_fresh "_val_filled") by exact Hv.
  rewrite (assign_fresh "category").
  2:{ rewrite map_app, in_app_iff. simpl. intros [H|[H|[]]]; [tauto|discriminate]. }
  assert (L : lookup "_val_filled" ((columns df ++ [("_val_filled", f)]) ++ [("category", c)])
              <> None).
  { rewrite lookup_None, !map_app, !in_app_iff. simpl. tauto. }
  destruct (lookup "_val_filled" _); [|contradiction].
  rewrite !filter_app. cbn [filter fst negb String.eqb Ascii.eqb Bool.eqb app].
  rewrite filter_keeps_all.
  - now rewrite app_nil_r.
  - intros [n cn] Hin. cbn [fst]. apply negb_true_iff, String.eqb_neq.
    intros ->. apply Hv. unfold labels. apply in_map_iff. exists ("_val_filled", cn). auto.
Qed.

(** ** The categorizer: boundary values, labels, the sentinel *)

(** C1, as stated, fails on a frame whose values are 30 and 60: the call
    returns no frame in which they are labelled medium and high, and the
    binning of line 77 labels them low and medium. *)
Lemma C1_edges_not_in_upper_interval :
  ~ (exists out cats,
       add_category_column on_edges "value" = Ok out /\
       category_labels out = Ok cats /\
       nth_error cats 0 = Some (Some "medium") /\
       nth_error cats 1 = Some (Some "high")) /\
  (exists mid,
     after_binning on_edges "value" = Ok mid /\
     category_labels mid = Ok [Some "low"; Some "medium"]).
Proof.
  split.
  - intros (out & cats & H & _). vm_compute in H. discriminate.
  - eexists. split; reflexivity.
Qed.

(** C1 (amended).  For every table and every present value of the source
    column equal to an interior bin boundary, the binning step of
    [add_category_column] assigns the label of the interval that the value
    closes from above, 30 to low and 60 to medium, and the override mask
    does not select the row. *)
Theorem C1_edge_value_is_binned_into_interval_it_closes
  (df : DataFrame) (col : string) (c : Column) (xs : list (option Q))
  (i : nat) (q : Q) :
  getitem df col = Ok c -> to_numeric c = Ok xs ->
  nth_error xs i = Some (Some q) ->
  exists mid cats mask,
    after_binning df col = Ok mid /\
    category_labels mid = Ok cats /\
    override_mask mid = Ok mask /\
    ((q == 30)%Q ->
       nth_error cats i = Some (Some "low") /\ nth_error mask i = Some false) /\
    ((q == 60)%Q ->
       nth_error cats i = Some (Some "medium") /\ nth_error mask i = Some false).
Proof.
  intros Hget Hnum Hi.
  destruct (after_binning_numeric df col c xs Hget Hnum) as (f & _ & Hnf & Hmid).
  eexists; eexists; eexists.
  split; [exact Hmid|].
  split; [apply category_after_binning|].
  split; [apply (mask_after_binning df f _ _ Hnf)|].
  rewrite !nth_error_map, Hi. cbn [option_map]. unfold filled.
  split; intros Hq; split.
  - now rewrite cut_value_30.
  - rewrite Hq. reflexivity.
  - now rewrite cut_value_60.
  - rewrite Hq. reflexivity.
Qed.

Lemma C1_edge_value_witness :
  exists mid cats mask,
    after_binning on_edges "value" = Ok mid /\
    category_labels mid = Ok cats /\
    override_mask mid = Ok mask /\
    ((30 == 30)%Q ->
       nth_error cats 0 = Some (Some "low") /\ nth_error mask 0 = Some false) /\
    ((30 == 60)%Q ->
       nth_error cats 0 = Some (Some "medium") /\ nth_error mask 0 = Some false).
Proof.
  exact (C1_edge_value_is_binned_into_interval_it_closes
           on_edges "value" (Float64 [Some 30; Some 60]%Q) [Some 30; Some 60]%Q 0 30%Q
           eq_refl eq_refl eq_refl).
Defined.

(** C2, as stated, fails on a frame whose only value is 2e9, a real number
    right of the last edge: no frame comes back with that row labelled, and
    the binning step leaves its category empty. *)
Lemma C2_value_beyond_last_edge_unlabelled :
  ~ (exists out cats l,
       add_category_column beyond_last_edge "value" = Ok out /\
       category_labels out = Ok cats /\
       nth_error cats 0 = Some (Some l) /\ is_label l) /\
  (exists mid,
     after_binning beyond_last_edge "value" = Ok mid /\
     category_labels mid = Ok [None] /\
     override_mask mid = Ok [false]).
Proof.
  split.
  - intros (out & cats & l & H & _). vm_compute in H. discriminate.
  - eexists. repeat split; reflexivity.
Qed.

(** C2 (amended).  For every table whose source column holds values that
    are each absent or a real number between -10000 and 1e9, the first two
    statements of [add_category_column] succeed and account for every row:
    the override mask selects a row exactly when its value is absent or
    equals the sentinel, and every row it does not select carries exactly
    one of the labels low, medium, high from the binning step. *)
Theorem C2_in_range_rows_are_binned_or_selected
  (df : DataFrame) (col : string) (c : Column) (xs : list (option Q)) :
  getitem df col = Ok c -> to_numeric c = Ok xs ->
  (forall q, In (Some q) xs -> (-10000 <= q)%Q /\ (q <= 1e9)%Q) ->
  exists mid cats mask,
    after_binning df col = Ok mid /\
    category_labels mid = Ok cats /\
    override_mask mid = Ok mask /\
    length cats = length xs /\ length mask = length xs /\
    forall i x, nth_error xs i = Some x ->
      nth_error mask i = Some (absent x || is_sentinel x) /\
      (absent x || is_sentinel x = false ->
         exists l, nth_error cats i = Some (Some l) /\ In l LABELS).
Proof.
  intros Hget Hnum Hrange.
  destruct (after_binning_numeric df col c xs Hget Hnum) as (f & _ & Hnf & Hmid).
  eexists; eexists; eexists.
  split; [exact Hmid|].
  split; [apply category_after_binning|].
  split; [apply (mask_after_binning df f _ _ Hnf)|].
  rewrite !length_map. split; [reflexivity|]. split; [reflexivity|].
  intros i x Hi. rewrite !nth_error_map, Hi. cbn [option_map].
  split; [now rewrite filled_is_sentinel|].
  intros Hsel. destruct x as [q|]; [|discriminate].
  destruct (Hrange q (nth_error_In _ _ Hi)) as [Hlo Hhi].
  destruct (cut_value_in_range q Hlo Hhi) as (l & Hl & Hin).
  exists l. unfold filled. now rewrite Hl.
Qed.

Lemma C2_in_range_witness :
  exists mid cats mask,
    after_binning one_absent "value" = Ok mid /\
    category_labels mid = Ok cats /\
    override_mask mid = Ok mask /\
    length cats = length [Some 45; None]%Q /\ length mask = length [Some 45; None]%Q /\
    forall i x, nth_error [Some 45; None]%Q i = Some x ->
      nth_error mask i = Some (absent x || is_sentinel x) /\
      (absent x || is_sentinel x = false ->
         exists l, nth_error cats i = Some (Some l) /\ In l LABELS).
Proof.
  apply (C2_in_range_rows_are_binned_or_selected
           one_absent "value" (Float64 [Some 45; None]%Q) [Some 45; None]%Q
           eq_refl eq_refl).
  intros q [H|[H|[]]]; inversion H; subst; split; discriminate.
Defined.




(** X18.  For every table with a numeric source column, the number of rows
    that [add_category_column] selects for the label missing (the rows of
    its override mask) equals the number of absent values in the source
    column plus the number of present values equal to -9999: the mask does
    not tell a genuine -9999 from an absent value. *)
Theorem X18_override_mask_counts_absent_and_sentinel
  (df : DataFrame) (col : string) (c : Column) (xs : list (option Q)) :
  getitem df col = Ok c -> to_numeric c = Ok xs ->
  exists mid mask,
    after_binning df col = Ok mid /\
    override_mask mid = Ok mask /\
    count_true mask = (count_absent xs + count_sentinel xs)%nat.
Proof.
  intros Hget Hnum.
  destruct (after_binning_numeric df col c xs Hget Hnum) as (f & _ & Hnf & Hmid).
  eexists; eexists.
  split; [exact Hmid|].
  split; [apply (mask_after_binning df f _ _ Hnf)|].
  rewrite map_map. rewrite <- count_true_mask.
  f_equal. apply map_ext. intros x. apply filled_is_sentinel.
Qed.

Lemma X18_override_mask_witness :
  exists mid mask,
    after_binning genuine_sentinel "value" = Ok mid /\
    override_mask mid = Ok mask /\
    count_true mask =
      (count_absent [Some (-9999)]%Q + count_sentinel [Some (-9999)]%Q)%nat.
Proof.
  exact (X18_override_mask_counts_absent_and_sentinel
           genuine_sentinel "value" (Float64 [Some (-9999)]%Q) [Some (-9999)]%Q
           eq_refl eq_refl).
Defined.

(** C5, as stated, fails: the sentinel is not below the first bin edge, and
    binning gives it the label low. *)
Lemma C5_sentinel_not_below_first_edge :
  ~ (SENTINEL < nth 0 BINS 0)%Q /\
  cut_value BINS LABELS true (Some SENTINEL) = Some "low".
Proof.
  split; [|reflexivity]. apply Qle_not_lt. apply Qle_bool_iff. reflexivity.
Qed.

(** C5 (amended).  The sentinel substituted for absent entries lies strictly
    above the lowest bin boundary and inside the first interval: after
    binning, every row with an absent value carries the label low, and it is
    set apart from the other low rows by the override mask, which selects
    it. *)
Theorem C5_sentinel_lies_inside_first_interval
  (df : DataFrame) (col : string) (c : Column) (xs : list (option Q)) (i : nat) :
  getitem df col = Ok c -> to_numeric c = Ok xs ->
  nth_error xs i = Some None ->
  (nth 0 BINS 0 < SENTINEL)%Q /\ (SENTINEL <= nth 1 BINS 0)%Q /\
  exists mid cats mask,
    after_binning df col = Ok mid /\
    category_labels mid = Ok cats /\
    override_mask mid = Ok mask /\
    nth_error cats i = Some (Some "low") /\
    nth_error mask i = Some true.
Proof.
  intros Hget Hnum Hi.
  split; [reflexivity|]. split; [apply Qle_bool_iff; reflexivity|].
  destruct (after_binning_numeric df col c xs Hget Hnum) as (f & _ & Hnf & Hmid).
  eexists; eexists; eexists.
  split; [exact Hmid|].
  split; [apply category_after_binning|].
  split; [apply (mask_after_binning df f _ _ Hnf)|].
  rewrite !nth_error_map, Hi. split; reflexivity.
Qed.

Lemma C5_sentinel_witness :
  (nth 0 BINS 0 < SENTINEL)%Q /\ (SENTINEL <= nth 1 BINS 0)%Q /\
  exists mid cats mask,
    after_binning one_absent "value" = Ok mid /\
    category_labels mid = Ok cats /\
    override_mask mid = Ok mask /\
    nth_error cats 1 = Some (Some "low") /\
    nth_error mask 1 = Some true.
Proof.
  exact (C5_sentinel_lies_inside_first_interval
           one_absent "value" (Float64 [Some 45; None]%Q) [Some 45; None]%Q 1
           eq_refl eq_refl eq_refl).
Defined.

(** C10: on a frame whose only value is a present -9999 the binning step
    labels the row low and the override mask selects it, but the assignment
    of line 83 raises [TypeError] and no frame is returned. *)
Theorem C10_genuine_sentinel_raises :
  add_category_column genuine_sentinel "value" = Raise TypeError /\
  exists mid,
    after_binning genuine_sentinel "value" = Ok mid /\
    category_labels mid = Ok [Some "low"] /\
    override_mask mid = Ok [true] /\
    line83 mid = Raise TypeError.
Proof.
  split; [reflexivity|]. eexists. repeat split; reflexivity.
Qed.

(** ** The columns of the result *)

(** C8, as stated, fails on a frame without rows that already has a column
    named category, and on one that has a column named _val_filled: neither
    comes back as its original columns followed by one new column.  The
    first keeps two columns, its category column replaced; the second loses
    its _val_filled column. *)
Lemma C8_reserved_labels_collide :
  ~ (exists out c,
       add_category_column has_category "value" = Ok out /\
       columns out = columns has_category ++ [("category", c)]) /\
  ~ (exists out,
       add_category_column has_val_filled "value" = Ok out /\
       incl (labels has_val_filled) (labels out)).
Proof.
  split.
  - intros (out & c & H & E). vm_compute in H. inversion H; subst out.
    cbn in E. discriminate.
  - intros (out & H & E). vm_compute in H. inversion H; subst out.
    assert (I : In "_val_filled" ["value"; "category"]).
    { apply E. simpl. auto. }
    simpl in I. destruct I as [I|[I|[]]]; discriminate.
Qed.

(** C8 (amended).  For every input table that has no column named category
    or _val_filled and whose source column is numeric, the working frame
    after binning holds the original columns followed by _val_filled and
    category, and every frame [add_category_column] returns holds the
    original index and columns, unchanged and in order, followed by exactly
    one new column, category; _val_filled is not in it. *)
Theorem C8_result_is_original_columns_plus_category
  (df : DataFrame) (col : string) (c : Column) (xs : list (option Q)) :
  ~ In "category" (labels df) -> ~ In "_val_filled" (labels df) ->
  getitem df col = Ok c -> to_numeric c = Ok xs ->
  (exists f b,
     after_binning df col =
       Ok (mkDataFrame (index df)
             (columns df ++ [("_val_filled", f); ("category", b)]))) /\
  (forall out, add_category_column df col = Ok out ->
     (exists b, out = mkDataFrame (index df) (columns df ++ [("category", b)])) /\
     ~ In "_val_filled" (labels out)).
Proof.
  intros Hc Hv Hget Hnum. split.
  - destruct (after_binning_numeric df col c xs Hget Hnum) as (f & _ & _ & Hmid).
    eexists; eexists. rewrite Hmid. unfold setitem. cbn [columns index].
    rewrite (assign_fresh "_val_filled") by exact Hv.
    rewrite (assign_fresh "category").
    + now rewrite <- app_assoc.
    + rewrite map_app, in_app_iff. simpl. intros [H|[H|[]]]; [tauto|discriminate].
  - intros out Hout.
    destruct (add_category_column_Ok_inv df col out Hout) as (c' & Hget' & Hnum').
    destruct (add_category_column_no_rows df col c' Hget' Hnum') as (f & Hf).
    rewrite Hf, (drop_working_column df f _ Hv Hc) in Hout.
    inversion Hout; subst out. split; [eexists; reflexivity|].
    unfold labels. cbn [columns]. rewrite map_app, in_app_iff. simpl.
    intros [H|[H|[]]]; [now apply Hv|discriminate].
Qed.

Lemma C8_result_columns_witness :
  (exists f b,
     after_binning no_rows "value" =
       Ok (mkDataFrame (index no_rows)
             (columns no_rows ++ [("_val_filled", f); ("category", b)]))) /\
  (forall out, add_category_column no_rows "value" = Ok out ->
     (exists b, out = mkDataFrame (index no_rows) (columns no_rows ++ [("category", b)])) /\
     ~ In "_val_filled" (labels out)).
Proof.
  apply (C8_result_is_original_columns_plus_category no_rows "value" (Float64 []) []).
  - simpl. intros [H|[H|[]]]; discriminate.
  - simpl. intros [H|[H|[]]]; discriminate.
  - reflexivity.
  - reflexivity.
Defined.

(** ** A source column that does not exist *)

(** C9.  For every table in which the named source column does not exist,
    [add_category_column] raises [KeyError] for that name at its first
    statement, line 76, before any column is added; as a call on the heap
    it leaves behind only the unlabelled private copy. *)
Theorem C9_missing_column_raises_KeyError (df : DataFrame) (col : string) :
  ~ In col (labels df) ->
  line76 col (copy df) = Raise (KeyError col) /\
  add_category_column df col = Raise (KeyError col) /\
  forall h r, nth_error h r = Some df ->
    Mem.add_category_column h r col = (h ++ [df], Raise (KeyError col)).
Proof.
  intros Hnot.
  assert (L : line76 col (copy df) = Raise (KeyError col)).
  { unfold line76, getitem, copy.
    apply lookup_None in Hnot. now rewrite Hnot. }
  split; [exact L|]. split.
  - unfold add_category_column, body. cbn [exec]. now rewrite L.
  - intros h r Hr. unfold Mem.add_category_column, Mem.alloc, body. rewrite Hr.
    cbn [Mem.exec]. rewrite nth_error_app2 by lia.
    rewrite Nat.sub_diag. cbn [nth_error]. now rewrite L.
Qed.

Lemma C9_missing_column_witness :
  line76 "price" (copy demo) = Raise (KeyError "price") /\
  add_category_column demo "price" = Raise (KeyError "price") /\
  forall h r, nth_error h r = Some demo ->
    Mem.add_category_column h r "price" = (h ++ [demo], Raise (KeyError "price")).
Proof.
  apply (C9_missing_column_raises_KeyError demo "price").
  simpl. intros [H|[H|[]]]; discriminate.
Defined.

(** ** Row selection *)

Lemma select_nil_r {A : Type} (mask : list bool) : select mask (@nil A) = [].
Proof. unfold select. now destruct mask. Qed.

Lemma select_cons {A : Type} (b : bool) (mask : list bool) (x : A) (xs : list A) :
  select (b :: mask) (x :: xs) = if b then x :: select mask xs else select mask xs.
Proof. unfold select. simpl. now destruct b. Qed.

Lemma select_map {A B : Type} (f : A -> B) (mask : list bool) (xs : list A) :
  select mask (map f xs) = map f (select mask xs).
Proof.
  revert xs. induction mask as [|b mask IH]; intros xs; [reflexivity|].
  destruct xs as [|x xs]; [reflexivity|].
  cbn [map]. rewrite !select_cons, IH. now destruct b.
Qed.

Lemma select_twice {A : Type} (mask : list bool) (xs : list A) :
  length mask = length xs ->
  select (select mask mask) (select mask xs) = select mask xs.
Proof.
  revert xs. induction mask as [|b mask IH]; intros xs H.
  - reflexivity.
  - destruct xs as [|x xs]; [discriminate|].
    injection H as H. rewrite !select_cons. destruct b.
    + rewrite select_cons. f_equal. now apply IH.
    + now apply IH.
Qed.

Lemma In_select {A : Type} (mask : list bool) (xs : list A) (a : A) :
  In a (select mask xs) <->
  exists i, nth_error mask i = Some true /\ nth_error xs i = Some a.
Proof.
  revert xs. induction mask as [|b mask IH]; intros xs.
  - split; [intros []|]. intros (i & H & _). destruct i; discriminate.
  - destruct xs as [|x xs].
    + rewrite select_nil_r. split; [intros []|].
      intros (i & _ & H). destruct i; discriminate.
    + rewrite select_cons. split.
      * intros H. destruct b.
        -- destruct H as [->|H]; [exists 0%nat; auto|].
           apply IH in H. destruct H as (i & H1 & H2). exists (S i). auto.
        -- apply IH in H. destruct H as (i & H1 & H2). exists (S i). auto.
      * intros (i & H1 & H2). destruct i as [|i]; cbn [nth_error] in H1, H2.
        -- inversion H1; inversion H2; subst. now left.
        -- assert (In a (select mask xs)) by (apply IH; eauto).
           destruct b; [now right|assumption].
Qed.

Lemma transpose_select (mask : list bool) (idx : list Z) cols :
  transpose (select mask idx)
            (map (fun nc : string * list Cell => (fst nc, select mask (snd nc))) cols)
  = select mask (transpose idx cols).
Proof.
  revert idx cols. induction mask as [|b mask IH]; intros idx cols; [reflexivity|].
  destruct idx as [|i idx]; [reflexivity|].
  cbn [transpose]. rewrite !select_cons.
  assert (Tl : forall cs : list Cell,
             select mask (tl cs) = if b then tl (select (b :: mask) cs)
                                   else select (b :: mask) cs).
  { intros [|x cs]; cbn [tl].
    - rewrite !select_nil_r. now destruct b.
    - rewrite select_cons. now destruct b. }
  assert (Hd : forall cs : list Cell,
             b = true -> hd_error (select (b :: mask) cs) = hd_error cs).
  { intros [|x cs] ->; [reflexivity|]. now rewrite select_cons. }
  rewrite <- IH. rewrite map_map. cbn [fst snd].
  destruct b.
  - cbn [transpose]. rewrite !map_map. cbn [fst snd]. apply f_equal2.
    + apply f_equal. apply map_ext. intros [n cs]. cbn [fst snd]. now rewrite Hd.
    + apply f_equal. apply map_ext. intros [n cs]. cbn [fst snd]. now rewrite Tl.
  - apply f_equal. apply map_ext. intros [n cs]. cbn [fst snd]. now rewrite Tl.
Qed.

Lemma cells_select_column (mask : list bool) (c : Column) :
  cells (select_column mask c) = select mask (cells c).
Proof. destruct c; simpl; now rewrite select_map. Qed.

Lemma rows_getitem_mask (df : DataFrame) (mask : list bool) :
  rows (getitem_mask df mask) = select mask (rows df).
Proof.
  unfold rows, getitem_mask. cbn [index columns].
  rewrite <- transpose_select, !map_map. cbn [fst snd].
  f_equal. apply map_ext. intros [n c]. cbn [fst snd]. now rewrite cells_select_column.
Qed.

Lemma to_numeric_select_column (mask : list bool) (c : Column) xs :
  to_numeric c = Ok xs -> to_numeric (select_column mask c) = Ok (select mask xs).
Proof.
  destruct c; simpl; intros H; inversion H; subst; auto.
  now rewrite select_map.
Qed.

Lemma to_numeric_size (c : Column) xs : to_numeric c = Ok xs -> length xs = size c.
Proof.
  destruct c; simpl; intros H; inversion H; subst; auto. apply length_map.
Qed.

Lemma lookup_In (name : string) cols c :
  lookup name cols = Some c -> In (name, c) cols.
Proof.
  induction cols as [|[n c0] rest IH]; simpl; [discriminate|].
  destruct (String.eqb n name) eqn:E.
  - apply String.eqb_eq in E. intros H; inversion H; subst. now left.
  - intros H. right. now apply IH.
Qed.

Lemma lookup_map_columns (g : Column -> Column) (name : string) cols :
  lookup name (map (fun nc : string * Column => (fst nc, g (snd nc))) cols)
  = option_map g (lookup name cols).
Proof.
  induction cols as [|[n c0] rest IH]; simpl; [reflexivity|].
  destruct (String.eqb n name); auto.
Qed.

Lemma select_length {A B : Type} (mask : list bool) (xs : list A) (ys : list B) :
  length xs = length ys -> length (select mask xs) = length (select mask ys).
Proof.
  revert xs ys. induction mask as [|b mask IH]; intros xs ys H; [reflexivity|].
  destruct xs as [|x xs], ys as [|y ys]; try discriminate.
  - now rewrite !select_nil_r.
  - injection H as H. rewrite !select_cons. destruct b; cbn [length]; auto.
Qed.

(** Row selection keeps a frame rectangular. *)
Lemma getitem_mask_wf (df : DataFrame) (mask : list bool) :
  wf df -> wf (getitem_mask df mask).
Proof.
  unfold wf, getitem_mask. cbn [index columns]. rewrite !Forall_forall.
  intros H nc Hin. apply in_map_iff in Hin. destruct Hin as ([n c] & <- & Hin).
  specialize (H _ Hin). cbn [fst snd] in *.
  destruct c; cbn [select_column size] in *; now apply select_length.
Qed.

Lemma filter_by_min_value_numeric df m c xs :
  getitem df "value" = Ok c -> to_numeric c = Ok xs ->
  filter_by_min_value df m = Ok (getitem_mask df (map (reaches m) xs)).
Proof.
  intros Hget Hnum. unfold filter_by_min_value, ge_scalar, copy.
  rewrite Hget. cbn [bind]. rewrite Hnum. reflexivity.
Qed.

Lemma filter_by_min_value_Ok_inv df m out :
  filter_by_min_value df m = Ok out ->
  exists c xs, getitem df "value" = Ok c /\ to_numeric c = Ok xs /\
               out = getitem_mask df (map (reaches m) xs).
Proof.
  intros H. destruct (getitem df "value") as [c|e] eqn:Hget.
  - destruct (to_numeric c) as [xs|e] eqn:Hnum.
    + rewrite (filter_by_min_value_numeric df m c xs Hget Hnum) in H.
      inversion H. eauto.
    + unfold filter_by_min_value, ge_scalar in H. rewrite Hget in H. cbn [bind] in H.
      rewrite Hnum in H. discriminate.
  - unfold filter_by_min_value in H. rewrite Hget in H. discriminate.
Qed.

(** ** The threshold filter *)

(** C3.  For every table whose value column is a float column and every
    threshold [m], [filter_by_min_value] returns a frame with the same
    column labels whose rows are the rows of the input at the positions
    where the value is present and at least [m], taken in their original
    order, each once and with all its cells; a row is in the output exactly
    when it stands at such a position, and an absent value excludes the row
    without an error. *)
Theorem C3_filter_keeps_exactly_rows_reaching_min_value
  (df : DataFrame) (m : Q) (xs : list (option Q)) :
  getitem df "value" = Ok (Float64 xs) ->
  exists out,
    filter_by_min_value df m = Ok out /\
    labels out = labels df /\
    rows out = select (map (reaches m) xs) (rows df) /\
    (forall r, In r (rows out) <->
       exists i q, nth_error (rows df) i = Some r /\
                   nth_error xs i = Some (Some q) /\ (m <= q)%Q) /\
    (forall i, nth_error xs i = Some None ->
       nth_error (map (reaches m) xs) i = Some false).
Proof.
  intros Hget. exists (getitem_mask df (map (reaches m) xs)).
  split; [now apply (filter_by_min_value_numeric df m (Float64 xs) xs)|].
  split.
  { unfold labels, getitem_mask. cbn [columns]. rewrite map_map. reflexivity. }
  split; [apply rows_getitem_mask|].
  split.
  - intros r. rewrite rows_getitem_mask, In_select. split.
    + intros (i & Hm & Hr). rewrite nth_error_map in Hm.
      destruct (nth_error xs i) as [[q|]|] eqn:Hx; try discriminate.
      cbn [option_map reaches] in Hm. inversion Hm as [Hle].
      exists i, q. split; [exact Hr|]. split; [exact Hx|]. now apply Qle_bool_iff.
    + intros (i & q & Hr & Hx & Hle). exists i. split; [|exact Hr].
      rewrite nth_error_map, Hx. cbn [option_map reaches].
      f_equal. now apply Qle_bool_iff.
  - intros i Hx. now rewrite nth_error_map, Hx.
Qed.

Lemma C3_filter_witness :
  exists out,
    filter_by_min_value demo 50 = Ok out /\
    labels out = labels demo /\
    rows out = select (map (reaches 50) [Some 10; None; Some 50; Some 55]%Q) (rows demo) /\
    (forall r, In r (rows out) <->
       exists i q, nth_error (rows demo) i = Some r /\
                   nth_error [Some 10; None; Some 50; Some 55]%Q i = Some (Some q) /\
                   (50 <= q)%Q) /\
    (forall i, nth_error [Some 10; None; Some 50; Some 55]%Q i = Some None ->
       nth_error (map (reaches 50) [Some 10; None; Some 50; Some 55]%Q) i = Some false).
Proof.
  exact (C3_filter_keeps_exactly_rows_reaching_min_value
           demo 50 [Some 10; None; Some 50; Some 55]%Q eq_refl).
Defined.

(** The example of the specification: values 10, absent, 50, 55 and
    threshold 50 leave the rows with 50 and 55, in that order. *)
Example filter_demo :
  filter_by_min_value demo 50 =
    Ok (mkDataFrame [2; 3]%Z
          [("id", Int64 [3; 4]%Z); ("value", Float64 [Some 50; Some 55]%Q)]).
Proof. reflexivity. Qed.

(** C6.  For every well-formed table and every threshold [m], filtering the
    result of [filter_by_min_value] again with [m] returns that result
    unchanged. *)
Theorem C6_filter_is_idempotent (df : DataFrame) (m : Q) (out : DataFrame) :
  wf df ->
  filter_by_min_value df m = Ok out ->
  filter_by_min_value out m = Ok out.
Proof.
  intros Hwf H.
  destruct (filter_by_min_value_Ok_inv df m out H) as (c & xs & Hget & Hnum & ->).
  set (mask := map (reaches m) xs).
  assert (Hlen : length mask = length (index df)).
  { unfold mask. rewrite length_map, (to_numeric_size c xs Hnum).
    unfold getitem in Hget. destruct (lookup "value" (columns df)) eqn:L; [|discriminate].
    inversion Hget; subst. apply lookup_In in L.
    unfold wf in Hwf. rewrite Forall_forall in Hwf. exact (Hwf _ L). }
  assert (Hget' : getitem (getitem_mask df mask) "value" = Ok (select_column mask c)).
  { unfold getitem in *. unfold getitem_mask. cbn [columns].
    rewrite lookup_map_columns.
    destruct (lookup "value" (columns df)); [|discriminate]. now inversion Hget. }
  rewrite (filter_by_min_value_numeric _ m _ _ Hget'
             (to_numeric_select_column mask c xs Hnum)).
  f_equal. rewrite <- select_map. fold mask.
  unfold getitem_mask. cbn [index columns]. f_equal.
  - apply select_twice. exact Hlen.
  - rewrite map_map. cbn [fst snd]. apply map_ext_in. intros [n c'] Hin. cbn [fst snd].
    f_equal.
    assert (Hsz : length mask = size c').
    { unfold wf in Hwf. rewrite Forall_forall in Hwf.
      rewrite Hlen. symmetry. exact (Hwf _ Hin). }
    destruct c'; cbn [select_column size] in *; f_equal; now apply select_twice.
Qed.

Lemma C6_filter_idempotent_witness :
  filter_by_min_value
    (mkDataFrame [2; 3]%Z
       [("id", Int64 [3; 4]%Z); ("value", Float64 [Some 50; Some 55]%Q)]) 50
  = Ok (mkDataFrame [2; 3]%Z
          [("id", Int64 [3; 4]%Z); ("value", Float64 [Some 50; Some 55]%Q)]).
Proof.
  apply (C6_filter_is_idempotent demo 50).
  - repeat constructor.
  - reflexivity.
Defined.

(** ** Calls on the heap *)

Lemma store_length (h : Mem.heap) (r : Mem.ref) (d : DataFrame) :
  length (Mem.store h r d) = length h.
Proof.
  revert r. induction h as [|x h IH]; intros r; [reflexivity|].
  destruct r; simpl; auto.
Qed.

Lemma nth_error_store_same (h : Mem.heap) (r : Mem.ref) (d : DataFrame) :
  (r < length h)%nat -> nth_error (Mem.store h r d) r = Some d.
Proof.
  revert r. induction h as [|x h IH]; intros r H; simpl in H; [lia|].
  destruct r; simpl; [reflexivity|]. apply IH. lia.
Qed.

Lemma nth_error_store_other (h : Mem.heap) (r r' : Mem.ref) (d : DataFrame) :
  r' <> r -> nth_error (Mem.store h r d) r' = nth_error h r'.
Proof.
  revert r r'. induction h as [|x h IH]; intros r r' H; [reflexivity|].
  destruct r, r'; simpl; auto. congruence.
Qed.

(** Running statements on the object at [out] touches no other object and
    computes what [exec] computes on the frame found there. *)
Lemma Mem_exec_frame (ss : list stmt) :
  forall (h : Mem.heap) (out : Mem.ref) (d : DataFrame),
    nth_error h out = Some d ->
    exists h' res,
      Mem.exec ss h out = (h', res) /\
      length h' = length h /\
      (forall r', r' <> out -> nth_error h' r' = nth_error h r') /\
      match res with
      | Ok _ => exists d', exec ss d = Ok d' /\ nth_error h' out = Some d'
      | Raise e => exec ss d = Raise e
      end.
Proof.
  induction ss as [|s rest IH]; intros h out d Hd.
  - exists h, (Ok tt). cbn [Mem.exec exec]. repeat split; eauto.
  - cbn [Mem.exec exec]. rewrite Hd.
    destruct (s d) as [d1|e] eqn:Hs; cbn [bind].
    + assert (Hlt : (out < length h)%nat).
      { apply nth_error_Some. congruence. }
      destruct (IH (Mem.store h out d1) out d1 (nth_error_store_same h out d1 Hlt))
        as (h' & res & Hrun & Hlen & Hother & Hres).
      exists h', res. split; [exact Hrun|].
      split; [now rewrite Hlen, store_length|].
      split; [|exact Hres].
      intros r' Hne. rewrite (Hother r' Hne). now apply nth_error_store_other.
    + exists h, (Raise e). repeat split; auto.
Qed.

(** C7.  For every heap and every input frame in it, a call of
    [add_category_column] or of [filter_by_min_value] leaves the input
    frame, and every other frame that existed before the call, exactly as it
    was, whether the call returns or raises; a returned frame is a newly
    allocated object, distinct from the input, holding the value the
    function computes from the input. *)
Theorem C7_calls_leave_input_frame_unchanged
  (h : Mem.heap) (r : Mem.ref) (df : DataFrame) :
  nth_error h r = Some df ->
  (forall col h' res,
     Mem.add_category_column h r col = (h', res) ->
     nth_error h' r = Some df /\
     (forall r', (r' < length h)%nat -> nth_error h' r' = nth_error h r') /\
     match res with
     | Ok out => (length h <= out)%nat /\ out <> r /\
                 exists d, nth_error h' out = Some d /\ add_category_column df col = Ok d
     | Raise e => add_category_column df col = Raise e
     end) /\
  (forall m h' res,
     Mem.filter_by_min_value h r m = (h', res) ->
     nth_error h' r = Some df /\
     (forall r', (r' < length h)%nat -> nth_error h' r' = nth_error h r') /\
     match res with
     | Ok out => (length h <= out)%nat /\ out <> r /\
                 exists d, nth_error h' out = Some d /\ filter_by_min_value df m = Ok d
     | Raise e => filter_by_min_value df m = Raise e
     end).
Proof.
  intros Hr.
  assert (Hlt : (r < length h)%nat) by (apply nth_error_Some; congruence).
  split.
  - intros col h' res Hcall.
    unfold Mem.add_category_column, Mem.alloc in Hcall. rewrite Hr in Hcall.
    assert (Hnew : nth_error (h ++ [copy df]) (length h) = Some (copy df)).
    { rewrite nth_error_app2 by lia. now rewrite Nat.sub_diag. }
    destruct (Mem_exec_frame (body col) _ _ _ Hnew)
      as (h2 & res2 & Hrun & Hlen & Hother & Hres).
    rewrite Hrun in Hcall. inversion Hcall; subst h' res. clear Hcall.
    assert (Hold : forall r', (r' < length h)%nat -> nth_error h2 r' = nth_error h r').
    { intros r' Hr'. rewrite Hother by lia. now apply nth_error_app1. }
    split; [now rewrite Hold|]. split; [exact Hold|].
    destruct res2 as [[]|e]; cbn [bind].
    + destruct Hres as (d' & Hd' & Hat).
      split; [lia|]. split; [lia|]. exists d'. split; [exact Hat|exact Hd'].
    + exact Hres.
  - intros m h' res Hcall.
    unfold Mem.filter_by_min_value, Mem.alloc in Hcall. rewrite Hr in Hcall.
    unfold filter_by_min_value.
    destruct (getitem df "value") as [v|e]; cbn [bind] in *.
    + destruct (ge_scalar v m) as [mask|e]; cbn [bind] in *.
      * inversion Hcall; subst h' res. clear Hcall.
        rewrite length_app. cbn [length].
        assert (Hold : forall r', (r' < length h)%nat ->
                  nth_error ((h ++ [getitem_mask df mask]) ++ [copy (getitem_mask df mask)]) r'
                  = nth_error h r').
        { intros r' Hr'. rewrite !nth_error_app1; auto. rewrite length_app. lia. }
        split; [now rewrite Hold|]. split; [exact Hold|].
        split; [lia|]. split; [lia|].
        exists (copy (getitem_mask df mask)). split; [|reflexivity].
        rewrite nth_error_app2 by (rewrite length_app; cbn [length]; lia).
        rewrite length_app. cbn [length]. now rewrite Nat.sub_diag.
      * inversion Hcall; subst. repeat split; auto.
    + inversion Hcall; subst. repeat split; auto.
Qed.

Lemma C7_input_unchanged_witness :
  (forall col h' res,
     Mem.add_category_column [demo] 0%nat col = (h', res) ->
     nth_error h' 0%nat = Some demo /\
     (forall r', (r' < length [demo])%nat -> nth_error h' r' = nth_error [demo] r') /\
     match res with
     | Ok out => (length [demo] <= out)%nat /\ out <> 0%nat /\
                 exists d, nth_error h' out = Some d /\ add_category_column demo col = Ok d
     | Raise e => add_category_column demo col = Raise e
     end) /\
  (forall m h' res,
     Mem.filter_by_min_value [demo] 0%nat m = (h', res) ->
     nth_error h' 0%nat = Some demo /\
     (forall r', (r' < length [demo])%nat -> nth_error h' r' = nth_error [demo] r') /\
     match res with
     | Ok out => (length [demo] <= out)%nat /\ out <> 0%nat /\
                 exists d, nth_error h' out = Some d /\ filter_by_min_value demo m = Ok d
     | Raise e => filter_by_min_value demo m = Raise e
     end).
Proof.
  exact (C7_calls_leave_input_frame_unchanged [demo] 0%nat demo eq_refl).
Defined.

(** The demo frame through both calls on the heap: the filter returns a new
    object and the categorizer raises, and the frame at reference 0 is the
    same before and after. *)
Example heap_demo :
  Mem.filter_by_min_value [demo] 0%nat 50 =
    ([demo;
      mkDataFrame [2; 3]%Z [("id", Int64 [3; 4]%Z); ("value", Float64 [Some 50; Some 55]%Q)];
      mkDataFrame [2; 3]%Z [("id", Int64 [3; 4]%Z); ("value", Float64 [Some 50; Some 55]%Q)]],
     Ok 2%nat) /\
  fst (Mem.add_category_column [demo] 0%nat "value") =
    [demo;
     setitem (setitem demo "_val_filled" (Float64 [Some 10; Some (-9999); Some 50; Some 55]%Q))
       "category" (Categorical LABELS [Some "low"; Some "low"; Some "medium"; Some "medium"])] /\
  snd (Mem.add_category_column [demo] 0%nat "value") = Raise TypeError.
Proof. repeat split; reflexivity. Qed.

(** ** More on the threshold filter *)

Lemma value_length df name c xs :
  wf df -> getitem df name = Ok c -> to_numeric c = Ok xs ->
  length xs = length (index df).
Proof.
  intros Hwf Hget Hnum. rewrite (to_numeric_size c xs Hnum).
  unfold getitem in Hget. destruct (lookup name (columns df)) eqn:L; [|discriminate].
  inversion Hget; subst. apply lookup_In in L.
  unfold wf in Hwf. rewrite Forall_forall in Hwf. exact (Hwf _ L).
Qed.

Lemma getitem_getitem_mask df mask name c :
  getitem df name = Ok c ->
  getitem (getitem_mask df mask) name = Ok (select_column mask c).
Proof.
  unfold getitem, getitem_mask. cbn [columns]. rewrite lookup_map_columns.
  destruct (lookup name (columns df)); [|discriminate].
  intros H; inversion H; reflexivity.
Qed.

Lemma select_select {A : Type} (m1 m2 : list bool) (l : list A) :
  length m1 = length l -> length m2 = length l ->
  select (select m1 m2) (select m1 l) = select (mask_and m1 m2) l.
Proof.
  revert m2 l. induction m1 as [|b1 m1 IH]; intros m2 l H1 H2.
  - reflexivity.
  - destruct l as [|x l]; [discriminate|]. destruct m2 as [|b2 m2]; [discriminate|].
    injection H1 as H1. injection H2 as H2.
    unfold mask_and. cbn [combine map fst snd]. fold (mask_and m1 m2).
    rewrite !select_cons. destruct b1; cbn [andb].
    + rewrite !select_cons. destruct b2; [f_equal|]; now apply IH.
    + now apply IH.
Qed.

Lemma mask_and_map {A : Type} (p1 p2 : A -> bool) (xs : list A) :
  mask_and (map p1 xs) (map p2 xs) = map (fun x => p1 x && p2 x) xs.
Proof.
  unfold mask_and. induction xs as [|x xs IH]; [reflexivity|].
  cbn [map combine fst snd]. now rewrite IH.
Qed.

Lemma select_column_select (m1 m2 : list bool) (c : Column) :
  length m1 = size c -> length m2 = size c ->
  select_column (select m1 m2) (select_column m1 c) = select_column (mask_and m1 m2) c.
Proof.
  intros H1 H2. destruct c; cbn [select_column size] in *; f_equal;
    now apply select_select.
Qed.

Lemma getitem_mask_twice df (m1 m2 : list bool) :
  wf df -> length m1 = length (index df) -> length m2 = length (index df) ->
  getitem_mask (getitem_mask df m1) (select m1 m2) = getitem_mask df (mask_and m1 m2).
Proof.
  intros Hwf H1 H2. unfold getitem_mask. cbn [index columns]. f_equal.
  - now apply select_select.
  - rewrite map_map. cbn [fst snd]. apply map_ext_in. intros [n c] Hin. cbn [fst snd].
    f_equal. unfold wf in Hwf. rewrite Forall_forall in Hwf.
    specialize (Hwf _ Hin). cbn [snd] in Hwf.
    apply select_column_select; congruence.
Qed.

(** Filtering a filtered frame keeps the rows that reach both thresholds. *)
Lemma filter_filter df m1 m2 c xs :
  wf df -> getitem df "value" = Ok c -> to_numeric c = Ok xs ->
  filter_by_min_value (getitem_mask df (map (reaches m1) xs)) m2
  = Ok (getitem_mask df (map (fun x => reaches m1 x && reaches m2 x) xs)).
Proof.
  intros Hwf Hget Hnum.
  pose proof (value_length df _ c xs Hwf Hget Hnum) as Hlen.
  rewrite (filter_by_min_value_numeric _ m2 _ _
             (getitem_getitem_mask df _ _ c Hget)
             (to_numeric_select_column _ c xs Hnum)).
  f_equal. rewrite <- select_map.
  rewrite getitem_mask_twice; try (rewrite length_map; exact Hlen); try exact Hwf.
  now rewrite mask_and_map.
Qed.

Lemma reaches_both_larger (m1 m2 : Q) (x : option Q) :
  (m1 <= m2)%Q -> reaches m1 x && reaches m2 x = reaches m2 x.
Proof.
  intros H. destruct x as [q|]; [|reflexivity]. cbn [reaches].
  destruct (Qle_bool m2 q) eqn:E2; [|apply andb_false_r].
  rewrite andb_true_r. apply Qle_bool_iff. apply Qle_bool_iff in E2.
  now apply Qle_trans with m2.
Qed.

(** X1.  On a table without a column named value, [filter_by_min_value]
    raises [KeyError] for that name; as a call on the heap it allocates
    nothing. *)
Theorem X1_filter_without_value_column_raises_KeyError (df : DataFrame) (m : Q) :
  ~ In "value" (labels df) ->
  filter_by_min_value df m = Raise (KeyError "value") /\
  forall h r, nth_error h r = Some df ->
    Mem.filter_by_min_value h r m = (h, Raise (KeyError "value")).
Proof.
  intros Hnot. apply lookup_None in Hnot.
  split.
  - unfold filter_by_min_value, getitem. now rewrite Hnot.
  - intros h r Hr. unfold Mem.filter_by_min_value, getitem. now rewrite Hr, Hnot.
Qed.

Lemma X1_filter_without_value_column_witness :
  filter_by_min_value (mkDataFrame [0%Z] [("id", Int64 [1%Z])]) 50
    = Raise (KeyError "value") /\
  forall h r, nth_error h r = Some (mkDataFrame [0%Z] [("id", Int64 [1%Z])]) ->
    Mem.filter_by_min_value h r 50 = (h, Raise (KeyError "value")).
Proof.
  apply (X1_filter_without_value_column_raises_KeyError
           (mkDataFrame [0%Z] [("id", Int64 [1%Z])]) 50).
  simpl. intros [H|[]]; discriminate.
Defined.

(** X2.  Filtering the result of a filter again is filtering once with the
    larger threshold: with [m1 <= m2] the second call gives what
    [filter_by_min_value df m2] gives, and with [m2 <= m1] it returns the
    first result unchanged. *)
Theorem X2_filter_twice_is_filter_with_larger_threshold
  (df : DataFrame) (m1 m2 : Q) (out1 : DataFrame) :
  wf df ->
  filter_by_min_value df m1 = Ok out1 ->
  ((m1 <= m2)%Q -> filter_by_min_value out1 m2 = filter_by_min_value df m2) /\
  ((m2 <= m1)%Q -> filter_by_min_value out1 m2 = Ok out1).
Proof.
  intros Hwf H.
  destruct (filter_by_min_value_Ok_inv df m1 out1 H) as (c & xs & Hget & Hnum & ->).
  rewrite (filter_filter df m1 m2 c xs Hwf Hget Hnum).
  split; intros Hle.
  - rewrite (filter_by_min_value_numeric df m2 c xs Hget Hnum). do 2 f_equal.
    apply map_ext. intros x. now apply reaches_both_larger.
  - do 2 f_equal. apply map_ext. intros x.
    rewrite andb_comm. now apply reaches_both_larger.
Qed.

Lemma X2_filter_twice_witness :
  ((20 <= 50)%Q ->
     filter_by_min_value
       (mkDataFrame [2; 3]%Z
          [("id", Int64 [3; 4]%Z); ("value", Float64 [Some 50; Some 55]%Q)]) 50
     = filter_by_min_value demo 50) /\
  ((50 <= 20)%Q ->
     filter_by_min_value
       (mkDataFrame [2; 3]%Z
          [("id", Int64 [3; 4]%Z); ("value", Float64 [Some 50; Some 55]%Q)]) 50
     = Ok (mkDataFrame [2; 3]%Z
             [("id", Int64 [3; 4]%Z); ("value", Float64 [Some 50; Some 55]%Q)])).
Proof.
  apply (X2_filter_twice_is_filter_with_larger_threshold demo 20 50).
  - repeat constructor.
  - reflexivity.
Defined.

(** X3.  Two filters commute: filtering with [m1] and then with [m2] gives
    the same frame, or the same exception, as filtering with [m2] and then
    with [m1]. *)
Theorem X3_filters_commute (df : DataFrame) (m1 m2 : Q) :
  wf df ->
  (o <- filter_by_min_value df m1 ;; filter_by_min_value o m2)
  = (o <- filter_by_min_value df m2 ;; filter_by_min_value o m1).
Proof.
  intros Hwf.
  destruct (getitem df "value") as [c|e] eqn:Hget.
  - destruct (to_numeric c) as [xs|e] eqn:Hnum.
    + rewrite (filter_by_min_value_numeric df m1 c xs Hget Hnum).
      rewrite (filter_by_min_value_numeric df m2 c xs Hget Hnum). cbn [bind].
      rewrite !(filter_filter df _ _ c xs Hwf Hget Hnum). do 2 f_equal.
      apply map_ext. intros x. apply andb_comm.
    + unfold filter_by_min_value, ge_scalar. rewrite Hget. cbn [bind].
      rewrite Hnum. reflexivity.
  - unfold filter_by_min_value. rewrite Hget. reflexivity.
Qed.

Lemma X3_filters_commute_witness :
  (o <- filter_by_min_value demo 20 ;; filter_by_min_value o 52)
  = (o <- filter_by_min_value demo 52 ;; filter_by_min_value o 20).
Proof.
  apply (X3_filters_commute demo 20 52). repeat constructor.
Defined.

Lemma select_self_Forall {A : Type} (p : A -> bool) (xs : list A) :
  Forall (fun x => p x = true) (select (map p xs) xs).
Proof.
  induction xs as [|x xs IH]; [constructor|].
  cbn [map]. rewrite select_cons. destruct (p x) eqn:E; auto.
Qed.

Lemma select_length_count {A : Type} (mask : list bool) (l : list A) :
  length mask = length l -> length (select mask l) = count_true mask.
Proof.
  revert l. induction mask as [|b mask IH]; intros l H; [reflexivity|].
  destruct l as [|x l]; [discriminate|]. injection H as H.
  rewrite select_cons. unfold count_true in *. cbn [filter].
  destruct b; cbn [length]; auto.
Qed.

Lemma count_true_le (mask : list bool) : (count_true mask <= length mask)%nat.
Proof. unfold count_true. apply filter_length_le. Qed.

Lemma select_all_true {A : Type} (mask : list bool) (l : list A) :
  (forall b, In b mask -> b = true) -> length mask = length l -> select mask l = l.
Proof.
  revert l. induction mask as [|b mask IH]; intros l Hall H.
  - destruct l; [reflexivity|discriminate].
  - destruct l as [|x l]; [discriminate|]. injection H as H.
    rewrite select_cons, (Hall b) by (now left). f_equal.
    apply IH; auto. intros b' Hb'. apply Hall. now right.
Qed.

Lemma select_all_false {A : Type} (mask : list bool) (l : list A) :
  (forall b, In b mask -> b = false) -> select mask l = [].
Proof.
  revert l. induction mask as [|b mask IH]; intros l Hall; [reflexivity|].
  destruct l as [|x l]; [apply select_nil_r|].
  rewrite select_cons, (Hall b) by (now left).
  apply IH. intros b' Hb'. apply Hall. now right.
Qed.

(** X4.  For every rectangular table whose value column is a float
    column, the frame [filter_by_min_value] returns is rectangular, its
    value column is a float column with no absent entry and only values of
    at least [m], its rows keep the index labels they had in the input, and
    it has as many rows as the input has values reaching [m], never more
    than the input. *)
Theorem X4_filter_result_has_only_present_values_reaching_m
  (df : DataFrame) (m : Q) (xs : list (option Q)) :
  wf df -> getitem df "value" = Ok (Float64 xs) ->
  exists out ys,
    filter_by_min_value df m = Ok out /\
    wf out /\
    getitem out "value" = Ok (Float64 ys) /\
    Forall (fun y => exists q, y = Some q /\ (m <= q)%Q) ys /\
    count_absent ys = 0%nat /\
    index out = select (map (reaches m) xs) (index df) /\
    nrows out = count_true (map (reaches m) xs) /\
    (nrows out <= nrows df)%nat.
Proof.
  intros Hwf Hget.
  pose proof (value_length df _ (Float64 xs) xs Hwf Hget eq_refl) as Hlen.
  set (mask := map (reaches m) xs).
  assert (Hall : Forall (fun y => exists q, y = Some q /\ (m <= q)%Q) (select mask xs)).
  { eapply Forall_impl; [|apply select_self_Forall].
    intros [q|] H; cbn [reaches] in H; [|discriminate].
    exists q. split; [reflexivity|]. now apply Qle_bool_iff. }
  exists (getitem_mask df mask), (select mask xs).
  split; [exact (filter_by_min_value_numeric df m (Float64 xs) xs Hget eq_refl)|].
  split; [now apply getitem_mask_wf|].
  split; [exact (getitem_getitem_mask df mask "value" (Float64 xs) Hget)|].
  split; [exact Hall|].
  split.
  { unfold count_absent. induction Hall as [|y ys (q & -> & _) _ IH]; [reflexivity|].
    exact IH. }
  split; [reflexivity|].
  assert (Hn : nrows (getitem_mask df mask) = count_true mask).
  { unfold nrows, getitem_mask. cbn [index]. apply select_length_count.
    unfold mask. now rewrite length_map. }
  split; [exact Hn|].
  rewrite Hn. unfold nrows. rewrite <- Hlen.
  replace (length xs) with (length mask) by (unfold mask; apply length_map).
  apply count_true_le.
Qed.

Lemma X4_filter_result_witness :
  exists out ys,
    filter_by_min_value demo 50 = Ok out /\
    wf out /\
    getitem out "value" = Ok (Float64 ys) /\
    Forall (fun y => exists q, y = Some q /\ (50 <= q)%Q) ys /\
    count_absent ys = 0%nat /\
    index out = select (map (reaches 50) [Some 10; None; Some 50; Some 55]%Q) (index demo) /\
    nrows out = count_true (map (reaches 50) [Some 10; None; Some 50; Some 55]%Q) /\
    (nrows out <= nrows demo)%nat.
Proof.
  apply (X4_filter_result_has_only_present_values_reaching_m
           demo 50 [Some 10; None; Some 50; Some 55]%Q).
  - repeat constructor.
  - reflexivity.
Defined.

(** X5.  When every value of the value column is present and at least [m],
    [filter_by_min_value] returns a frame equal to its input; in particular
    a table without rows passes through unchanged. *)
Theorem X5_filter_keeps_table_whose_values_all_reach_m
  (df : DataFrame) (m : Q) (c : Column) (xs : list (option Q)) :
  wf df -> getitem df "value" = Ok c -> to_numeric c = Ok xs ->
  (forall x, In x xs -> exists q, x = Some q /\ (m <= q)%Q) ->
  filter_by_min_value df m = Ok df.
Proof.
  intros Hwf Hget Hnum Hall.
  pose proof (value_length df _ c xs Hwf Hget Hnum) as Hlen.
  rewrite (filter_by_min_value_numeric df m c xs Hget Hnum). f_equal.
  assert (Htrue : forall b, In b (map (reaches m) xs) -> b = true).
  { intros b Hb. apply in_map_iff in Hb. destruct Hb as (x & <- & Hx).
    destruct (Hall x Hx) as (q & -> & Hle). now apply Qle_bool_iff. }
  destruct df as [idx cols]. unfold getitem_mask. cbn [index columns] in *. f_equal.
  - apply select_all_true; [exact Htrue|]. now rewrite length_map.
  - rewrite <- (map_id cols) at 2. apply map_ext_in. intros [n c0] Hin. cbn [fst snd].
    f_equal. unfold wf in Hwf. cbn [index columns] in Hwf. rewrite Forall_forall in Hwf.
    specialize (Hwf _ Hin). cbn [snd] in Hwf.
    destruct c0; cbn [select_column size] in *; f_equal;
      (apply select_all_true; [exact Htrue|rewrite length_map; congruence]).
Qed.

Lemma X5_filter_keeps_table_witness :
  filter_by_min_value (value_frame [Some 50; Some 55]%Q) 50
  = Ok (value_frame [Some 50; Some 55]%Q).
Proof.
  apply (X5_filter_keeps_table_whose_values_all_reach_m
           (value_frame [Some 50; Some 55]%Q) 50
           (Float64 [Some 50; Some 55]%Q) [Some 50; Some 55]%Q).
  - repeat constructor.
  - reflexivity.
  - reflexivity.
  - intros x [<-|[<-|[]]]; eexists; (split; [reflexivity|discriminate]).
Defined.

(** X6.  When the value column is a float column and none of its values
    reaches [m] (each is absent or below [m]), [filter_by_min_value] still
    returns a frame: it has no rows and keeps every column of the input,
    each with length zero. *)
Theorem X6_filter_with_no_row_reaching_m_returns_empty_frame
  (df : DataFrame) (m : Q) (xs : list (option Q)) :
  getitem df "value" = Ok (Float64 xs) ->
  (forall x, In x xs -> x = None \/ exists q, x = Some q /\ (q < m)%Q) ->
  exists out,
    filter_by_min_value df m = Ok out /\
    nrows out = 0%nat /\
    labels out = labels df /\
    Forall (fun nc => size (snd nc) = 0%nat) (columns out).
Proof.
  intros Hget Hnone.
  assert (Hfalse : forall b, In b (map (reaches m) xs) -> b = false).
  { intros b Hb. apply in_map_iff in Hb. destruct Hb as (x & <- & Hx).
    destruct (Hnone x Hx) as [->|(q & -> & Hlt)]; [reflexivity|].
    cbn [reaches]. destruct (Qle_bool m q) eqn:E; [|reflexivity].
    apply Qle_bool_iff in E. exfalso. exact (Qlt_not_le _ _ Hlt E). }
  exists (getitem_mask df (map (reaches m) xs)).
  split; [exact (filter_by_min_value_numeric df m (Float64 xs) xs Hget eq_refl)|].
  unfold nrows, labels, getitem_mask. cbn [index columns].
  split; [now rewrite select_all_false|].
  split; [rewrite map_map; reflexivity|].
  rewrite Forall_forall. intros nc Hin. apply in_map_iff in Hin.
  destruct Hin as ([n c0] & <- & _). cbn [fst snd].
  destruct c0; cbn [select_column size]; now rewrite select_all_false.
Qed.

Lemma X6_filter_no_row_witness :
  exists out,
    filter_by_min_value demo 100 = Ok out /\
    nrows out = 0%nat /\
    labels out = labels demo /\
    Forall (fun nc => size (snd nc) = 0%nat) (columns out).
Proof.
  apply (X6_filter_with_no_row_reaching_m_returns_empty_frame
           demo 100 [Some 10; None; Some 50; Some 55]%Q).
  - reflexivity.
  - intros x [<-|[<-|[<-|[<-|[]]]]];
      try (now left); right; eexists; (split; [reflexivity|reflexivity]).
Defined.

(** ** More on the categorizer *)

(** X7.  On every table whose source column is numeric and has at least one
    row, [add_category_column] raises [TypeError]: lines 74-82 succeed, and
    the assignment of line 83 is refused by the categorical that [pd.cut]
    returned, for which the text missing is not a category. *)
Theorem X7_categorizer_raises_TypeError_on_table_with_rows
  (df : DataFrame) (col : string) (c : Column) (xs : list (option Q)) :
  getitem df col = Ok c -> to_numeric c = Ok xs -> xs <> [] ->
  add_category_column df col = Raise TypeError /\
  exists mid, after_binning df col = Ok mid /\ line83 mid = Raise TypeError.
Proof.
  intros Hget Hnum Hne. destruct xs as [|x xs]; [contradiction|].
  split; [exact (add_category_column_raises df col c x xs Hget Hnum)|].
  destruct (after_binning_numeric df col c _ Hget Hnum) as (f & _ & Hnf & Hmid).
  eexists. split; [exact Hmid|].
  rewrite (line83_after_binning df f _ _ Hnf). reflexivity.
Qed.

Lemma X7_categorizer_raises_witness :
  add_category_column demo "value" = Raise TypeError /\
  exists mid, after_binning demo "value" = Ok mid /\ line83 mid = Raise TypeError.
Proof.
  apply (X7_categorizer_raises_TypeError_on_table_with_rows
           demo "value" (Float64 [Some 10; None; Some 50; Some 55]%Q)
           [Some 10; None; Some 50; Some 55]%Q); [reflexivity|reflexivity|discriminate].
Defined.

(** X8.  On a table without rows whose source column is numeric and which
    has no column named category or _val_filled, [add_category_column]
    returns the input columns followed by an empty categorical column
    category whose categories are low, medium, high. *)
Theorem X8_categorizer_on_table_without_rows
  (df : DataFrame) (col : string) (c : Column) :
  getitem df col = Ok c -> to_numeric c = Ok [] ->
  ~ In "category" (labels df) -> ~ In "_val_filled" (labels df) ->
  add_category_column df col =
    Ok (mkDataFrame (index df) (columns df ++ [("category", Categorical LABELS [])])).
Proof.
  intros Hget Hnum Hc Hv.
  destruct (add_category_column_no_rows df col c Hget Hnum) as (f & Hf).
  rewrite Hf. now apply drop_working_column.
Qed.

Lemma X8_categorizer_without_rows_witness :
  add_category_column no_rows "value" =
    Ok (mkDataFrame (index no_rows)
          (columns no_rows ++ [("category", Categorical LABELS [])])).
Proof.
  apply (X8_categorizer_on_table_without_rows no_rows "value" (Float64 []));
    try reflexivity; simpl; intros [H|[H|[]]]; discriminate.
Defined.

Lemma Qle_bool_gt (x y : Q) : (y < x)%Q -> Qle_bool x y = false.
Proof.
  intros H. destruct (Qle_bool x y) eqn:E; [|reflexivity].
  apply Qle_bool_iff in E. exfalso. exact (Qlt_not_le _ _ H E).
Qed.

Lemma Qeq_bool_ne (x y : Q) : ~ (x == y)%Q -> Qeq_bool x y = false.
Proof.
  intros H. destruct (Qeq_bool x y) eqn:E; [|reflexivity].
  apply Qeq_bool_iff in E. contradiction.
Qed.

Lemma cut_value_low (q : Q) :
  (-10000 <= q)%Q -> (q <= 30)%Q -> cut_value BINS LABELS true (Some q) = Some "low".
Proof.
  intros Hlo Hhi. rewrite cut_value_default.
  destruct (Qeq_bool q (-10000)) eqn:E0; [reflexivity|].
  rewrite Qle_bool_gt.
  - apply Qle_bool_iff in Hhi. now rewrite Hhi.
  - apply Qeq_bool_neq in E0. apply Qle_lteq in Hlo.
    destruct Hlo as [Hlt|Heq]; [exact Hlt|]. exfalso. apply E0. now symmetry.
Qed.

Lemma cut_value_medium (q : Q) :
  (30 < q)%Q -> (q <= 60)%Q -> cut_value BINS LABELS true (Some q) = Some "medium".
Proof.
  intros Hlo Hhi. rewrite cut_value_default.
  assert (H0 : (-10000 < q)%Q) by (eapply Qlt_trans; [|exact Hlo]; reflexivity).
  rewrite Qeq_bool_ne by (intros E; rewrite E in H0; discriminate).
  rewrite (Qle_bool_gt q (-10000)) by exact H0.
  rewrite (Qle_bool_gt q 30) by exact Hlo.
  apply Qle_bool_iff in Hhi. now rewrite Hhi.
Qed.

Lemma cut_value_high (q : Q) :
  (60 < q)%Q -> (q <= 1e9)%Q -> cut_value BINS LABELS true (Some q) = Some "high".
Proof.
  intros Hlo Hhi. rewrite cut_value_default.
  assert (H1 : (30 < q)%Q) by (eapply Qlt_trans; [|exact Hlo]; reflexivity).
  assert (H0 : (-10000 < q)%Q) by (eapply Qlt_trans; [|exact H1]; reflexivity).
  rewrite Qeq_bool_ne by (intros E; rewrite E in H0; discriminate).
  rewrite (Qle_bool_gt q (-10000)) by exact H0.
  rewrite (Qle_bool_gt q 30) by exact H1.
  rewrite (Qle_bool_gt q 60) by exact Hlo.
  apply Qle_bool_iff in Hhi. now rewrite Hhi.
Qed.

Lemma cut_value_outside (q : Q) :
  (q < -10000)%Q \/ (1e9 < q)%Q -> cut_value BINS LABELS true (Some q) = None.
Proof.
  intros H. rewrite cut_value_default. destruct H as [H|H].
  - rewrite Qeq_bool_ne by (intros E; rewrite E in H; discriminate).
    apply Qlt_le_weak in H. apply Qle_bool_iff in H. now rewrite H.
  - assert (H2 : (60 < q)%Q) by (eapply Qlt_trans; [|exact H]; reflexivity).
    assert (H1 : (30 < q)%Q) by (eapply Qlt_trans; [|exact H2]; reflexivity).
    assert (H0 : (-10000 < q)%Q) by (eapply Qlt_trans; [|exact H1]; reflexivity).
    rewrite Qeq_bool_ne by (intros E; rewrite E in H0; discriminate).
    rewrite (Qle_bool_gt q (-10000)) by exact H0.
    rewrite (Qle_bool_gt q 30) by exact H1.
    rewrite (Qle_bool_gt q 60) by exact H2.
    now rewrite (Qle_bool_gt q 1e9) by exact H.
Qed.

(** The four regions cover the line. *)
Lemma bin_regions (q : Q) :
  ((-10000 <= q)%Q /\ (q <= 30)%Q) \/ ((30 < q)%Q /\ (q <= 60)%Q) \/
  ((60 < q)%Q /\ (q <= 1e9)%Q) \/ ((q < -10000)%Q \/ (1e9 < q)%Q).
Proof.
  destruct (Qlt_le_dec q (-10000)) as [H0|H0]; [right; right; right; now left|].
  destruct (Qlt_le_dec 30 q) as [H1|H1]; [|left; auto].
  destruct (Qlt_le_dec 60 q) as [H2|H2]; [|right; left; auto].
  destruct (Qlt_le_dec 1e9 q) as [H3|H3]; [right; right; right; now right|].
  right; right; left; auto.
Qed.

(** X9.  The binning of lines 77-82, as intervals: a value gets low exactly
    when it lies in [-10000, 30], medium exactly in (30, 60], high exactly
    in (60, 1e9], and no label exactly when it is below -10000 or above
    1e9; an absent value gets no label. *)
Theorem X9_binning_intervals (q : Q) :
  (cut_value BINS LABELS true (Some q) = Some "low" <-> (-10000 <= q)%Q /\ (q <= 30)%Q) /\
  (cut_value BINS LABELS true (Some q) = Some "medium" <-> (30 < q)%Q /\ (q <= 60)%Q) /\
  (cut_value BINS LABELS true (Some q) = Some "high" <-> (60 < q)%Q /\ (q <= 1e9)%Q) /\
  (cut_value BINS LABELS true (Some q) = None <-> (q < -10000)%Q \/ (1e9 < q)%Q) /\
  cut_value BINS LABELS true None = None.
Proof.
  pose proof (cut_value_low q) as L. pose proof (cut_value_medium q) as M.
  pose proof (cut_value_high q) as H. pose proof (cut_value_outside q) as O.
  assert (R := bin_regions q).
  split; [|split; [|split; [|split; [|reflexivity]]]];
    (split; [intros E | tauto]);
    destruct R as [[A B]|[[A B]|[[A B]|A]]];
    try (split; assumption); try assumption;
    try (rewrite (L A B) in E; discriminate);
    try (rewrite (M A B) in E; discriminate);
    try (rewrite (H A B) in E; discriminate);
    try (rewrite (O A) in E; discriminate).
Qed.

(** X10.  Every row the override mask of line 83 selects carries the label
    low after binning, whether its value was absent or a present -9999: the
    override is only ever asked to relabel low rows. *)
Theorem X10_override_mask_selects_only_low_rows
  (df : DataFrame) (col : string) (c : Column) (xs : list (option Q)) :
  getitem df col = Ok c -> to_numeric c = Ok xs ->
  exists mid cats mask,
    after_binning df col = Ok mid /\
    category_labels mid = Ok cats /\
    override_mask mid = Ok mask /\
    forall i, nth_error mask i = Some true -> nth_error cats i = Some (Some "low").
Proof.
  intros Hget Hnum.
  destruct (after_binning_numeric df col c xs Hget Hnum) as (f & _ & Hnf & Hmid).
  eexists; eexists; eexists.
  split; [exact Hmid|].
  split; [apply category_after_binning|].
  split; [apply (mask_after_binning df f _ _ Hnf)|].
  intros i. rewrite !nth_error_map.
  destruct (nth_error xs i) as [[q|]|]; cbn [option_map]; unfold filled;
    [|reflexivity|discriminate].
  intros E. assert (Eq : Qeq_bool q SENTINEL = true) by congruence. clear E.
  apply Qeq_bool_iff in Eq. f_equal.
  apply cut_value_low; rewrite Eq; discriminate.
Qed.

Lemma X10_override_mask_witness :
  exists mid cats mask,
    after_binning demo "value" = Ok mid /\
    category_labels mid = Ok cats /\
    override_mask mid = Ok mask /\
    forall i, nth_error mask i = Some true -> nth_error cats i = Some (Some "low").
Proof.
  exact (X10_override_mask_selects_only_low_rows
           demo "value" (Float64 [Some 10; None; Some 50; Some 55]%Q)
           [Some 10; None; Some 50; Some 55]%Q eq_refl eq_refl).
Defined.

(** ** The sample frame *)

Lemma putmask_length {A : Type} (mask : list bool) (v : A) (xs : list A) :
  length mask = length xs -> length (putmask mask v xs) = length xs.
Proof.
  intros H. unfold putmask. rewrite length_map, length_combine. lia.
Qed.

Lemma putmask_all_false {A : Type} (mask : list bool) (v : A) (xs : list A) :
  (forall b, In b mask -> b = false) -> length mask = length xs ->
  putmask mask v xs = xs.
Proof.
  unfold putmask. revert xs. induction mask as [|b mask IH]; intros xs Hall H.
  - destruct xs; [reflexivity|discriminate].
  - destruct xs as [|x xs]; [discriminate|]. injection H as H.
    cbn [combine map fst snd]. rewrite (Hall b) by (now left).
    f_equal. apply IH; auto. intros b' Hb'. apply Hall. now right.
Qed.

(** Past the labelled row the mask of [loc_set_na] is false. *)
Lemma label_mask_past (label start k : nat) :
  (label < start)%nat ->
  forall b, In b (map (Z.eqb (Z.of_nat label)) (map Z.of_nat (seq start k))) -> b = false.
Proof.
  intros Hlt b Hb. rewrite map_map in Hb. apply in_map_iff in Hb.
  destruct Hb as (i & <- & Hi). apply in_seq in Hi. apply Z.eqb_neq. lia.
Qed.

Section SampleFacts.

Variable normal : nat -> Q.
Variable date : nat -> string.

Lemma create_sample_df_small (n : Z) :
  (0 <= n < 3)%Z ->
  create_sample_df normal date n =
    Ok (mkDataFrame (map Z.of_nat (seq 0 (Z.to_nat n)))
          [("id", Int64 (map Z.of_nat (seq 1 (Z.to_nat n))));
           ("name", Object (map (fun i => Some (item_name i)) (seq 1 (Z.to_nat n))));
           ("value", Float64 (map (fun i => Some (normal i)) (seq 0 (Z.to_nat n))));
           ("date", Object (map (fun i => Some (date i)) (seq 0 (Z.to_nat n))))]).
Proof.
  intros H. unfold create_sample_df.
  replace (n <? 0)%Z with false by (symmetry; apply Z.ltb_ge; lia).
  replace (3 <=? n)%Z with false by (symmetry; apply Z.leb_gt; lia).
  reflexivity.
Qed.

Lemma create_sample_df_large (k : nat) :
  create_sample_df normal date (Z.of_nat (3 + k)) =
    Ok (mkDataFrame (map Z.of_nat (seq 0 (3 + k)))
          [("id", Int64 (map Z.of_nat (seq 1 (3 + k))));
           ("name", Object (Some (item_name 1) :: Some (item_name 2) :: None
                              :: map (fun i => Some (item_name i)) (seq 4 k)));
           ("value", Float64 (Some (normal 0) :: None :: Some (normal 2)
                                :: map (fun i => Some (normal i)) (seq 3 k)));
           ("date", Object (map (fun i => Some (date i)) (seq 0 (3 + k))))]).
Proof.
  unfold create_sample_df.
  replace (Z.of_nat (3 + k) <? 0)%Z with false by (symmetry; apply Z.ltb_ge; lia).
  replace (3 <=? Z.of_nat (3 + k))%Z with true by (symmetry; apply Z.leb_le; lia).
  rewrite Nat2Z.id. change (3 + k)%nat with (S (S (S k))).
  cbn [seq map].
  unfold loc_set_na at 1. cbn [index columns map existsb negb orb Z.eqb Z.of_nat
    Pos.of_succ_nat Pos.succ Pos.eqb lookup String.eqb Ascii.eqb Bool.eqb].
  unfold putmask at 1. cbn [combine map fst snd Z.eqb Z.of_nat Pos.eqb Pos.of_succ_nat Pos.succ].
  pose proof (putmask_all_false _ (@None Q) (map (fun i => Some (normal i)) (seq 3 k))
                (label_mask_past 1 3 k ltac:(lia))) as P.
  unfold putmask in P. cbn [Z.of_nat Pos.of_succ_nat] in P.
  rewrite P by (now rewrite !length_map, !length_seq). clear P.
  cbn [bind]. unfold setitem at 1. cbn [index columns assign String.eqb Ascii.eqb Bool.eqb].
  unfold loc_set_na. cbn [index columns map existsb negb orb Z.eqb Z.of_nat
    Pos.of_succ_nat Pos.succ Pos.eqb lookup String.eqb Ascii.eqb Bool.eqb].
  unfold putmask at 1. cbn [combine map fst snd Z.eqb Z.of_nat Pos.eqb Pos.of_succ_nat Pos.succ].
  pose proof (putmask_all_false _ (@None string) (map (fun i => Some (item_name i)) (seq 4 k))
                (label_mask_past 2 3 k ltac:(lia))) as P.
  unfold putmask in P. cbn [Z.of_nat Pos.of_succ_nat Pos.succ] in P.
  rewrite P by (now rewrite !length_map, !length_seq). clear P.
  reflexivity.
Qed.

(** The value column of the sample frame, whatever the size. *)
Lemma sample_value_column (n : Z) :
  (0 <= n)%Z ->
  exists df xs,
    create_sample_df normal date n = Ok df /\ wf df /\
    getitem df "value" = Ok (Float64 xs) /\
    length xs = Z.to_nat n /\ index df = map Z.of_nat (seq 0 (Z.to_nat n)) /\
    ((3 <= n)%Z -> nth_error xs 1 = Some None).
Proof.
  intros Hn. destruct (Z_lt_le_dec n 3) as [Hs|Hl].
  - eexists; eexists. split; [apply create_sample_df_small; lia|].
    split; [|split; [reflexivity|split; [|split; [reflexivity|lia]]]].
    + unfold wf. cbn [index columns]. repeat constructor; cbn [snd size];
        now rewrite !length_map, !length_seq.
    + now rewrite length_map, length_seq.
  - pose proof (create_sample_df_large (Z.to_nat n - 3)) as L.
    replace (Z.of_nat (3 + (Z.to_nat n - 3))) with n in L by lia.
    eexists; eexists. split; [exact L|].
    split; [|split; [reflexivity|split; [|split]]].
    + unfold wf. cbn [index columns]. repeat constructor; cbn [snd size length];
        rewrite !length_map, !length_seq; lia.
    + cbn [length]. rewrite length_map, length_seq. lia.
    + cbn [index]. f_equal. f_equal. lia.
    + reflexivity.
Qed.

Lemma count_true_lt (mask : list bool) (i : nat) :
  nth_error mask i = Some false -> (count_true mask < length mask)%nat.
Proof.
  unfold count_true. revert i. induction mask as [|b mask IH]; intros i H.
  - destruct i; discriminate.
  - destruct i as [|i]; cbn [nth_error] in H.
    + inversion H; subst. cbn [filter length].
      pose proof (filter_length_le (fun b : bool => b) mask). lia.
    + specialize (IH i H). cbn [filter]. destruct b; cbn [length]; lia.
Qed.

End SampleFacts.

Lemma nth_error_map_seq {A : Type} (g : nat -> A) (k : nat) :
  forall start j, (j < k)%nat -> nth_error (map g (seq start k)) j = Some (g (start + j)%nat).
Proof.
  induction k as [|k IH]; intros start j Hj; [lia|].
  cbn [seq map]. destruct j as [|j]; cbn [nth_error].
  - now rewrite Nat.add_0_r.
  - rewrite IH by lia. f_equal. f_equal. lia.
Qed.

Lemma filter_is_none_present {A B : Type} (g : A -> B) (l : list A) :
  filter is_none (map (fun i => Some (g i)) l) = [].
Proof. induction l as [|a l IH]; [reflexivity|exact IH]. Qed.

Lemma In_select_In {A : Type} (mask : list bool) (l : list A) (a : A) :
  In a (select mask l) -> In a l.
Proof.
  intros H. apply In_select in H. destruct H as (i & _ & H).
  exact (nth_error_In _ _ H).
Qed.

(** X11.  [create_sample_df] raises [ValueError] for a negative size and
    otherwise returns a rectangular frame of [n] rows with the columns id,
    name, value, date in that order, the row labels 0 to n-1 and the ids 1
    to n. *)
Theorem X11_sample_frame_shape (normal : nat -> Q) (date : nat -> string) (n : Z) :
  ((n < 0)%Z /\ create_sample_df normal date n = Raise ValueError) \/
  ((0 <= n)%Z /\
   exists df,
     create_sample_df normal date n = Ok df /\
     wf df /\
     labels df = ["id"; "name"; "value"; "date"] /\
     nrows df = Z.to_nat n /\
     index df = map Z.of_nat (seq 0 (Z.to_nat n)) /\
     getitem df "id" = Ok (Int64 (map Z.of_nat (seq 1 (Z.to_nat n))))).
Proof.
  destruct (Z_lt_le_dec n 0) as [Hneg|Hn].
  - left. split; [exact Hneg|]. unfold create_sample_df.
    now replace (n <? 0)%Z with true by (symmetry; apply Z.ltb_lt; lia).
  - right. split; [exact Hn|].
    destruct (sample_value_column normal date n Hn) as (df & xs & Hdf & Hwf & _ & _ & Hidx & _).
    exists df. split; [exact Hdf|]. split; [exact Hwf|].
    assert (Hn' : nrows df = Z.to_nat n).
    { unfold nrows. now rewrite Hidx, length_map, length_seq. }
    destruct (Z_lt_le_dec n 3) as [Hs|Hl].
    + rewrite create_sample_df_small in Hdf by lia. inversion Hdf; subst df.
      repeat split; auto.
    + pose proof (create_sample_df_large normal date (Z.to_nat n - 3)) as L.
      replace (Z.of_nat (3 + (Z.to_nat n - 3))) with n in L by lia.
      replace (3 + (Z.to_nat n - 3))%nat with (Z.to_nat n) in L by lia.
      rewrite L in Hdf. inversion Hdf as [E].
      split; [reflexivity|]. split; [rewrite E; exact Hn'|]. split; [rewrite E; exact Hidx|].
      reflexivity.
Qed.

(** X12.  For a size of at least 3 the sample frame has exactly two missing
    cells: the value of the second row (label 1) and the name of the third
    row (label 2).  Every other value is the draw of its row, every other
    name is item_ followed by the row's id, and the per-column counts of
    missing entries are 0, 1, 1, 0. *)
Theorem X12_sample_frame_missing_cells
  (normal : nat -> Q) (date : nat -> string) (n : Z) :
  (3 <= n)%Z ->
  exists df xs names,
    create_sample_df normal date n = Ok df /\
    getitem df "value" = Ok (Float64 xs) /\
    getitem df "name" = Ok (Object names) /\
    nth_error xs 1 = Some None /\
    (forall i, i <> 1%nat -> (i < Z.to_nat n)%nat ->
       nth_error xs i = Some (Some (normal i))) /\
    nth_error names 2 = Some None /\
    (forall i, i <> 2%nat -> (i < Z.to_nat n)%nat ->
       nth_error names i = Some (Some (item_name (S i)))) /\
    isna_sum df = [("id", 0%nat); ("name", 1%nat); ("value", 1%nat); ("date", 0%nat)].
Proof.
  intros Hn. set (k := (Z.to_nat n - 3)%nat).
  assert (En : n = Z.of_nat (3 + k)) by (unfold k; lia).
  assert (Ek : Z.to_nat n = (3 + k)%nat) by (unfold k; lia).
  pose proof (create_sample_df_large normal date k) as L. rewrite <- En in L.
  rewrite Ek.
  eexists; eexists; eexists.
  split; [exact L|].
  split; [reflexivity|]. split; [reflexivity|].
  split; [reflexivity|].
  split.
  { intros i Hi Hlt. destruct i as [|[|[|i]]]; try reflexivity; [contradiction|].
    cbn [nth_error]. rewrite nth_error_map_seq by lia. reflexivity. }
  split; [reflexivity|].
  split.
  { intros i Hi Hlt. destruct i as [|[|[|i]]]; try reflexivity; [contradiction|].
    cbn [nth_error]. rewrite nth_error_map_seq by lia. reflexivity. }
  unfold isna_sum. cbn [columns map fst snd isna_count filter is_none].
  now rewrite !filter_is_none_present.
Qed.

Lemma X12_sample_frame_missing_witness :
  exists df xs names,
    create_sample_df draws days 12 = Ok df /\
    getitem df "value" = Ok (Float64 xs) /\
    getitem df "name" = Ok (Object names) /\
    nth_error xs 1 = Some None /\
    (forall i, i <> 1%nat -> (i < Z.to_nat 12)%nat ->
       nth_error xs i = Some (Some (draws i))) /\
    nth_error names 2 = Some None /\
    (forall i, i <> 2%nat -> (i < Z.to_nat 12)%nat ->
       nth_error names i = Some (Some (item_name (S i)))) /\
    isna_sum df = [("id", 0%nat); ("name", 1%nat); ("value", 1%nat); ("date", 0%nat)].
Proof.
  apply (X12_sample_frame_missing_cells draws days 12). lia.
Defined.

(** X13.  For a size below 3 the guard of line 46 skips the two
    assignments: the sample frame has no missing cell, and its values are
    the draws. *)
Theorem X13_small_sample_frame_has_no_missing_cell
  (normal : nat -> Q) (date : nat -> string) (n : Z) :
  (0 <= n < 3)%Z ->
  exists df,
    create_sample_df normal date n = Ok df /\
    getitem df "value" =
      Ok (Float64 (map (fun i => Some (normal i)) (seq 0 (Z.to_nat n)))) /\
    isna_sum df = [("id", 0%nat); ("name", 0%nat); ("value", 0%nat); ("date", 0%nat)].
Proof.
  intros Hn. eexists. split; [now apply create_sample_df_small|].
  split; [reflexivity|].
  unfold isna_sum. cbn [columns map fst snd isna_count].
  now rewrite !filter_is_none_present.
Qed.

Lemma X13_small_sample_witness :
  exists df,
    create_sample_df draws days 2 = Ok df /\
    getitem df "value" =
      Ok (Float64 (map (fun i => Some (draws i)) (seq 0 (Z.to_nat 2)))) /\
    isna_sum df = [("id", 0%nat); ("name", 0%nat); ("value", 0%nat); ("date", 0%nat)].
Proof.
  apply (X13_small_sample_frame_has_no_missing_cell draws days 2). lia.
Defined.

(** X14.  On the sample frame [filter_by_min_value] always returns: the
    value column exists and is numeric.  The result has at most [n] rows,
    and for a size of at least 3 strictly fewer, because the row labelled 1,
    whose value line 47 made missing, is never kept. *)
Theorem X14_filter_on_sample_frame_drops_the_missing_row
  (normal : nat -> Q) (date : nat -> string) (n : Z) (m : Q) :
  (0 <= n)%Z ->
  exists df out,
    create_sample_df normal date n = Ok df /\
    filter_by_min_value df m = Ok out /\
    (nrows out <= Z.to_nat n)%nat /\
    ((3 <= n)%Z -> (nrows out < Z.to_nat n)%nat /\ ~ In 1%Z (index out)).
Proof.
  intros Hn.
  destruct (sample_value_column normal date n Hn)
    as (df & xs & Hdf & Hwf & Hget & Hlen & Hidx & Hna).
  exists df, (getitem_mask df (map (reaches m) xs)).
  split; [exact Hdf|].
  split; [exact (filter_by_min_value_numeric df m _ xs Hget eq_refl)|].
  assert (Hrows : nrows (getitem_mask df (map (reaches m) xs))
                  = count_true (map (reaches m) xs)).
  { unfold nrows, getitem_mask. cbn [index]. apply select_length_count.
    now rewrite Hidx, !length_map, length_seq. }
  rewrite Hrows. split.
  { rewrite <- Hlen, <- (length_map (reaches m) xs). apply count_true_le. }
  intros H3. specialize (Hna H3).
  assert (Hm : nth_error (map (reaches m) xs) 1 = Some false).
  { now rewrite nth_error_map, Hna. }
  split.
  - rewrite <- Hlen, <- (length_map (reaches m) xs). exact (count_true_lt _ 1%nat Hm).
  - cbn [getitem_mask index]. intros Hin. apply In_select in Hin.
    destruct Hin as (i & Hi & Hlab). rewrite Hidx in Hlab.
    assert (Hlt : (i < Z.to_nat n)%nat).
    { rewrite <- (length_seq (Z.to_nat n) 0), <- (length_map Z.of_nat).
      apply nth_error_Some. congruence. }
    rewrite (nth_error_map_seq Z.of_nat _ 0 i Hlt) in Hlab.
    assert (i = 1%nat) by (inversion Hlab; lia). subst i. congruence.
Qed.

Lemma X14_filter_on_sample_witness :
  exists df out,
    create_sample_df draws days 12 = Ok df /\
    filter_by_min_value df 50 = Ok out /\
    (nrows out <= Z.to_nat 12)%nat /\
    ((3 <= 12)%Z -> (nrows out < Z.to_nat 12)%nat /\ ~ In 1%Z (index out)).
Proof.
  apply (X14_filter_on_sample_frame_drops_the_missing_row draws days 12 50). lia.
Defined.

(** X15.  On every sample frame with at least one row the categorizer
    raises [TypeError]: the frame the script builds for itself cannot be
    categorized. *)
Theorem X15_categorizer_raises_on_sample_frame
  (normal : nat -> Q) (date : nat -> string) (n : Z) :
  (1 <= n)%Z ->
  exists df,
    create_sample_df normal date n = Ok df /\
    add_category_column df "value" = Raise TypeError.
Proof.
  intros Hn.
  destruct (sample_value_column normal date n ltac:(lia))
    as (df & xs & Hdf & _ & Hget & Hlen & _ & _).
  exists df. split; [exact Hdf|].
  destruct xs as [|x xs]; [cbn [length] in Hlen; lia|].
  exact (add_category_column_raises df "value" _ x xs Hget eq_refl).
Qed.

Lemma X15_categorizer_on_sample_witness :
  exists df,
    create_sample_df draws days 12 = Ok df /\
    add_category_column df "value" = Raise TypeError.
Proof.
  apply (X15_categorizer_raises_on_sample_frame draws days 12). lia.
Defined.

(** X16.  Whatever the random draws, the dates and the output path, [main]
    ends with [TypeError], raised by its call of [add_category_column].  It
    has printed its first line, the summary of the sample frame and the line
    that announces the categorization; it prints nothing after that,
    creates no directory and writes no file. *)
Theorem X16_main_raises_before_filtering_and_saving
  (normal : nat -> Q) (date : nat -> string) (sample_output : option string) :
  exists df,
    create_sample_df normal date 12 = Ok df /\
    main normal date sample_output =
      (PrintText "Creating sample DataFrame..."
         :: fst (summarize_df df)
         ++ [PrintText (newline ++ "Adding category column based on 'value'...")],
       Raise TypeError) /\
    existsb writes (fst (main normal date sample_output)) = false.
Proof.
  eexists. split; [reflexivity|]. split; vm_compute; reflexivity.
Qed.

(** ** The summary and the filter *)

Lemma reaching_and_missing (m : Q) (xs : list (option Q)) :
  (count_true (map (reaches m) xs) + length (filter is_none xs) <= length xs)%nat.
Proof.
  unfold count_true. induction xs as [|x xs IH]; [reflexivity|].
  cbn [map filter]. destruct x as [q|]; cbn [reaches is_none].
  - destruct (Qle_bool m q); cbn [length]; lia.
  - cbn [length]. lia.
Qed.

(** X17.  The number of missing values that [summarize_df] reports for the
    value column bounds what the filter can keep: for every rectangular
    table and every threshold, the rows [filter_by_min_value] returns and
    the missing values reported for value together never exceed the rows of
    the table. *)
Theorem X17_filter_never_keeps_rows_reported_missing
  (df : DataFrame) (m : Q) (c : Column) (xs : list (option Q)) (out : DataFrame) :
  wf df -> getitem df "value" = Ok c -> to_numeric c = Ok xs ->
  filter_by_min_value df m = Ok out ->
  In ("value", isna_count c) (isna_sum df) /\
  In (PrintCounts (isna_sum df)) (fst (summarize_df df)) /\
  (nrows out + isna_count c <= nrows df)%nat.
Proof.
  intros Hwf Hget Hnum Hout.
  pose proof (value_length df _ c xs Hwf Hget Hnum) as Hlen.
  split.
  { unfold getitem in Hget. destruct (lookup "value" (columns df)) eqn:L; [|discriminate].
    inversion Hget; subst. apply lookup_In in L.
    unfold isna_sum. apply in_map_iff. exists ("value", c). auto. }
  split.
  { assert (Hnumcol : existsb (fun nc => is_number (snd nc)) (columns df) = true).
    { apply existsb_exists. exists ("value", c). split.
      - unfold getitem in Hget. destruct (lookup "value" (columns df)) eqn:L; [|discriminate].
        inversion Hget; subst. now apply lookup_In.
      - destruct c; try reflexivity; discriminate. }
    unfold summarize_df. rewrite Hnumcol.
    unfold io_bind, emit. cbn [fst snd app]. simpl. tauto. }
  rewrite (filter_by_min_value_numeric df m c xs Hget Hnum) in Hout.
  inversion Hout; subst out.
  assert (Hrows : nrows (getitem_mask df (map (reaches m) xs))
                  = count_true (map (reaches m) xs)).
  { unfold nrows, getitem_mask. cbn [index]. apply select_length_count.
    now rewrite length_map. }
  rewrite Hrows. unfold nrows. rewrite <- Hlen.
  destruct c as [ys|zs|os|cats os]; cbn [to_numeric] in Hnum; inversion Hnum; subst xs;
    cbn [isna_count].
  - apply reaching_and_missing.
  - rewrite Nat.add_0_r. etransitivity; [apply count_true_le|]. now rewrite length_map.
Qed.

Lemma X17_filter_and_summary_witness :
  In ("value", isna_count (Float64 [Some 10; None; Some 50; Some 55]%Q)) (isna_sum demo) /\
  In (PrintCounts (isna_sum demo)) (fst (summarize_df demo)) /\
  (nrows (mkDataFrame [2; 3]%Z
            [("id", Int64 [3; 4]%Z); ("value", Float64 [Some 50; Some 55]%Q)])
   + isna_count (Float64 [Some 10; None; Some 50; Some 55]%Q) <= nrows demo)%nat.
Proof.
  apply (X17_filter_never_keeps_rows_reported_missing
           demo 50 (Float64 [Some 10; None; Some 50; Some 55]%Q)
           [Some 10; None; Some 50; Some 55]%Q).
  - repeat constructor.
  - reflexivity.
  - reflexivity.
  - reflexivity.
Defined.

(** ** Integer columns as float64 *)

Lemma float64_of_int_exact (z : Z) :
  (Z.abs z < 2 ^ 53)%Z -> float64_of_int z = inject_Z z.
Proof.
  intros H. unfold float64_of_int.
  now replace (Z.abs z <? 2 ^ 53)%Z with true by (symmetry; apply Z.ltb_lt; exact H).
Qed.

(** Beyond 2^53 the conversion keeps the sign and stays beyond 2^53. *)
Lemma float64_of_int_large (z : Z) :
  (2 ^ 53 <= Z.abs z)%Z ->
  exists k, float64_of_int z = inject_Z (Z.sgn z * k) /\ (2 ^ 53 <= k)%Z.
Proof.
  intros H. unfold float64_of_int.
  replace (Z.abs z <? 2 ^ 53)%Z with false by (symmetry; apply Z.ltb_ge; exact H).
  set (a := Z.abs z) in *.
  assert (Ha : (0 < a)%Z) by (change (2 ^ 53)%Z with 9007199254740992%Z in H; lia).
  destruct (Z.log2_spec a Ha) as [Hlo _].
  assert (HL : (53 <= Z.log2 a)%Z).
  { rewrite <- (Z.log2_pow2 53) by lia. now apply Z.log2_le_mono. }
  set (e := (Z.log2 a - 52)%Z) in *.
  assert (He : (1 <= e)%Z) by (unfold e; lia).
  assert (Hu : (2 <= 2 ^ e)%Z).
  { change 2%Z with (2 ^ 1)%Z at 1. apply Z.pow_le_mono_r; lia. }
  assert (Hsplit : (2 ^ Z.log2 a = 2 ^ 52 * 2 ^ e)%Z).
  { rewrite <- Z.pow_add_r by lia. f_equal. unfold e. lia. }
  assert (Hq : (2 ^ 52 <= a / 2 ^ e)%Z).
  { apply Z.div_le_lower_bound; [lia|]. rewrite Z.mul_comm, <- Hsplit. exact Hlo. }
  eexists. split; [reflexivity|].
  set (q := (a / 2 ^ e)%Z) in *.
  assert (Hq' : (q <= (if (2 * (a mod 2 ^ e) <? 2 ^ e)%Z then q
                       else if (2 ^ e <? 2 * (a mod 2 ^ e))%Z then q + 1
                            else if Z.even q then q else q + 1))%Z).
  { destruct (2 * (a mod 2 ^ e) <? 2 ^ e)%Z; [lia|].
    destruct (2 ^ e <? 2 * (a mod 2 ^ e))%Z; [lia|].
    destruct (Z.even q); lia. }
  change (2 ^ 53)%Z with (2 ^ 52 * 2)%Z.
  apply Z.mul_le_mono_nonneg; lia.
Qed.

(** Line 83 compares an integer column with the integer -9999; on the
    float64 values the answer is the same. *)
Lemma float64_of_int_is_sentinel (z : Z) :
  Qeq_bool (float64_of_int z) SENTINEL = (z =? -9999)%Z.
Proof.
  destruct (Z_lt_le_dec (Z.abs z) (2 ^ 53)) as [Hs|Hl].
  - rewrite float64_of_int_exact by exact Hs.
    unfold Qeq_bool, SENTINEL. cbn [Qnum Qden inject_Z].
    destruct (z =? -9999)%Z eqn:E.
    + apply Z.eqb_eq in E. subst z. reflexivity.
    + apply Z.eqb_neq in E. apply Z.eqb_neq. lia.
  - destruct (float64_of_int_large z Hl) as (k & -> & Hk).
    change (2 ^ 53)%Z with 9007199254740992%Z in Hl, Hk.
    replace (z =? -9999)%Z with false by (symmetry; apply Z.eqb_neq; lia).
    unfold Qeq_bool, SENTINEL. cbn [Qnum Qden inject_Z].
    apply Z.eqb_neq. destruct (Z.sgn_spec z) as [[_ ->]|[[_ ->]|[_ ->]]]; lia.
Qed.

(** The bin edges lie far below 2^53, so binning the float64 value of an
    integer and binning the integer itself give the same label. *)
Lemma cut_value_float64_of_int (z : Z) :
  cut_value BINS LABELS true (Some (float64_of_int z))
  = cut_value BINS LABELS true (Some (inject_Z z)).
Proof.
  destruct (Z_lt_le_dec (Z.abs z) (2 ^ 53)) as [Hs|Hl].
  - now rewrite float64_of_int_exact.
  - destruct (float64_of_int_large z Hl) as (k & -> & Hk).
    change (2 ^ 53)%Z with 9007199254740992%Z in Hl, Hk.
    assert (Hout : forall j : Z, (9007199254740992 <= Z.abs j)%Z ->
              cut_value BINS LABELS true (Some (inject_Z j)) = None).
    { intros j Hj. apply cut_value_outside.
      destruct (Z_lt_le_dec j 0) as [Hneg|Hpos]; [left|right].
      - change (-10000)%Q with (inject_Z (-10000)). rewrite <- Zlt_Qlt. lia.
      - change (1e9)%Q with (inject_Z 1000000000). rewrite <- Zlt_Qlt. lia. }
    rewrite (Hout z Hl). apply Hout.
    destruct (Z.sgn_spec z) as [[? ->]|[[? ->]|[? ->]]]; lia.
Qed.

(** An integer value column is compared as float64: 2^53+3 becomes 2^53+4
    and reaches the threshold 2^53+4, so the row is kept. *)
Example filter_int64_column_compares_as_float64 :
  filter_by_min_value
    (mkDataFrame [0%Z] [("value", Int64 [9007199254740995%Z])]) 9007199254740996
  = Ok (mkDataFrame [0%Z] [("value", Int64 [9007199254740995%Z])]).
Proof. reflexivity. Qed.
